(* Verification of the keyword-intelligence aggregation engine of
   trendible-backend: the DataForSEO error classifier and retry loop
   (utils/dataForSEOErrorHandlers.ts), the response envelope extractor
   (utils/dataForSEOResponseHandler.ts), the metric derivation functions and
   source adapters (services/researchService.ts) and the multi-source
   orchestrator (the `sources`-list variant of researchService). *)

From Stdlib Require Import ZArith QArith Qround Lqa String Ascii List Bool Lia.
From Stdlib Require Import DecimalString Qminmax Qabs.
Import ListNotations.
Open Scope Z_scope.
Open Scope string_scope.

(* ------------------------------------------------------------------------- *)
(** * JavaScript helpers *)

(** Template-literal rendering of an integral JS number. *)
Definition show_Z (z : Z) : string := NilZero.string_of_int (Z.to_int z).

(** Template-literal rendering of an optional number ([undefined]). *)
Definition show_optZ (z : option Z) : string :=
  match z with Some z => show_Z z | None => "undefined" end.

Definition show_optstr (s : option string) : string :=
  match s with Some s => s | None => "undefined" end.

(** Truthiness of an optional string ([undefined] and [""] are falsy). *)
Definition truthy_str (s : option string) : bool :=
  match s with Some s => negb (String.eqb s "") | None => false end.

(** [a || b] on optional strings. *)
Definition or_str (a : option string) (b : string) : string :=
  match a with Some s => if String.eqb s "" then b else s | None => b end.

(** [x || 0] on optional numbers. *)
Definition or0 (x : option Q) : Q := match x with Some q => q | None => 0%Q end.

(** [Math.round]: round half up. *)
Definition js_round (q : Q) : Z := Qfloor (q + (1 # 2))%Q.

(** A JavaScript [number]: a finite double (kept as the rational it denotes;
    [-0] reads as [0]), [NaN] or an infinity. *)
Inductive JsNumber := Num (q : Q) | NaN | Infinity | NegInfinity.

(** [Number.MAX_VALUE] *)
Definition MAX_VALUE : Q := inject_Z ((2 ^ 53 - 1) * 2 ^ 971).

(** A finite result of a double operation, overflowing to an infinity
    beyond [Number.MAX_VALUE]. *)
Definition finite_or_overflow (r : Q) : JsNumber :=
  if Qle_bool (Qabs r) MAX_VALUE then Num r
  else if Qle_bool 0 r then Infinity else NegInfinity.

(** [n <= x] for a non-negative integer [n]. *)
Definition nat_le_num (n : nat) (x : JsNumber) : bool :=
  match x with
  | Num q => Qle_bool (inject_Z (Z.of_nat n)) q
  | Infinity => true
  | NaN | NegInfinity => false
  end.

(** [n === x] for a non-negative integer [n]. *)
Definition nat_eq_num (n : nat) (x : JsNumber) : bool :=
  match x with Num q => Qeq_bool (inject_Z (Z.of_nat n)) q | _ => false end.

(** [x * Math.pow(2, n)]: multiplying by a power of two is exact on
    doubles, up to overflow; infinities and [NaN] are kept. *)
Definition num_mul_pow2 (x : JsNumber) (n : nat) : JsNumber :=
  match x with
  | Num q => finite_or_overflow (q * inject_Z (2 ^ Z.of_nat n))%Q
  | other => other
  end.

(** A call that returns normally or throws an [Error] with a message. *)
Inductive Res (A : Type) := Ok (a : A) | Throw (msg : string).
Arguments Ok {A} a.
Arguments Throw {A} msg.

(** [[...new Set(xs)]]: duplicates removed, first occurrences kept in order. *)
Definition dedup (xs : list string) : list string :=
  fold_left (fun acc x => if existsb (String.eqb x) acc then acc else (acc ++ [x])%list) xs [].

(** [String.prototype.includes]. *)
Definition includes (s sub : string) : bool :=
  match String.index 0 sub s with Some _ => true | None => false end.

(* ------------------------------------------------------------------------- *)
(** * Error classification and retry (utils/dataForSEOErrorHandlers.ts) *)

Module ErrorHandlers.

(** [DataForSEOError] *)
Record DataForSEOError := mkDataForSEOError {
  statusCode : Z;
  message : string;
  retryable : bool;
  cost : option Q
}.

(** Body of an HTTP error response ([error.response.data]). *)
Record ResponseData := mkResponseData {
  data_status_message : option string;
  data_cost : option Q
}.

(** What an operation may throw: an HTTP error carrying [error.response]
    ([status], [statusText], [data]), a transport error carrying
    [error.code], an error with neither, or an already classified
    [DataForSEOError]. *)
Inductive JsError :=
| ErrResponse (status : Z) (statusText : option string) (data : option ResponseData)
| ErrCode (code : string)
| ErrPlain
| ErrDataForSEO (e : DataForSEOError).

(** The constructor: [this.retryable = details.retryable || false]. *)
Definition newDataForSEOError (statusCode : Z) (message : string)
    (retryable : option bool) (cost : option Q) : DataForSEOError :=
  mkDataForSEOError statusCode message
    (match retryable with Some b => b | None => false end) cost.

Definition handleApiError (error : JsError) : DataForSEOError :=
  match error with
  | ErrDataForSEO e => e
  | ErrResponse status statusText data =>
      let message0 :=
        or_str statusText
          (or_str (match data with Some d => data_status_message d | None => None end)
             "Unknown DataForSEO API error") in
      let cost := or0 (match data with Some d => data_cost d | None => None end) in
      let '(message, retryable) :=
        if Z.eqb status 401 then ("Invalid DataForSEO API credentials", false)
        else if Z.eqb status 402 then ("Insufficient DataForSEO API credits", false)
        else if Z.eqb status 429 then ("DataForSEO API rate limit exceeded", true)
        else if existsb (Z.eqb status) [500; 502; 503; 504]
        then ("DataForSEO API server error", true)
        else (message0, false) in
      newDataForSEOError status message (Some retryable) (Some cost)
  | ErrCode code =>
      let '(message, retryable) :=
        if String.eqb code "" then ("Unknown DataForSEO API error", false)
        else if existsb (String.eqb code) ["ECONNREFUSED"; "ENOTFOUND"; "ETIMEDOUT"]
        then ("DataForSEO API connection failed", true)
        else if String.eqb code "ECONNABORTED"
        then ("DataForSEO API request timeout", true)
        else ("Unknown DataForSEO API error", false) in
      newDataForSEOError 500 message (Some retryable) (Some 0%Q)
  | ErrPlain =>
      newDataForSEOError 500 "Unknown DataForSEO API error" (Some false) (Some 0%Q)
  end.

(** [dataForSEOConfig.retry] (config/dataForSEOConfig.ts); the other
    members of the configuration singleton are not used here. *)
Record RetryConfig := mkRetryConfig {
  MAX_RETRIES : Q;
  BASE_DELAY : Q;
  MAX_DELAY : Q;
  BACKOFF_MULTIPLIER : Q
}.

Record DataForSEOConfiguration := mkDataForSEOConfiguration {
  retry : RetryConfig
}.

Definition dataForSEOConfig : DataForSEOConfiguration :=
  mkDataForSEOConfiguration (mkRetryConfig 3 1000 10000 2).

(** [dataForSEOConfig.instance]: the class [DataForSEOConfiguration] declares
    no member named [instance], so the access yields [undefined]. *)
Definition dataForSEOConfig_instance : option DataForSEOConfiguration := None.

(** [dataForSEOConfig.instance.retry]: reading a property of [undefined]
    throws a [TypeError]. *)
Definition instance_retry : Res RetryConfig :=
  match dataForSEOConfig_instance with
  | Some c => Ok (retry c)
  | None => Throw "Cannot read properties of undefined (reading 'retry')"
  end.

(** The default-parameter expressions of [withRetry]. *)
Definition default_maxRetries : Res JsNumber :=
  match instance_retry with Ok r => Ok (Num (MAX_RETRIES r)) | Throw m => Throw m end.

Definition default_baseDelay : Res JsNumber :=
  match instance_retry with Ok r => Ok (Num (BASE_DELAY r)) | Throw m => Throw m end.

(** A parameter with a default: the default expression is evaluated only
    when the argument is [undefined] ([None]). *)
Definition param_or_default (arg : option JsNumber) (dflt : Res JsNumber) : Res JsNumber :=
  match arg with Some x => Ok x | None => dflt end.

(** Outcome of one invocation of the wrapped [operation]. *)
Inductive Outcome (T : Type) :=
| Resolve (v : T)
| Reject (e : JsError).
Arguments Resolve {T} v.
Arguments Reject {T} e.

(** Observable effects of [withRetry]: the [n]-th call of [operation] and
    each [sleep(ms)]. *)
Inductive Event := Invoke (n : nat) | Sleep (ms : JsNumber).

(** How a run of [withRetry] ends: the operation's value, a thrown
    classified error, the final [throw lastError!] ([None]: [lastError] is
    still [undefined]), a [TypeError] raised while evaluating a default
    parameter, or [Pending]: the loop is still running after the iterations
    the model follows (only possible when [maxRetries] is [Infinity]). *)
Inductive RetryResult (T : Type) :=
| Returned (v : T)
| Thrown (e : DataForSEOError)
| ThrownLast (e : option DataForSEOError)
| ThrownTypeError (message : string)
| Pending.
Arguments Returned {T} v.
Arguments Thrown {T} e.
Arguments ThrownLast {T} e.
Arguments ThrownTypeError {T} message.
Arguments Pending {T}.

Section WithRetry.
Context {T : Type}.
(** The stateful operation: [op n] is the outcome of its [n]-th call. *)
Variable op : nat -> Outcome T.
Variable maxRetries : JsNumber.
Variable baseDelay : JsNumber.

(** The [for (let attempt = 0; attempt <= maxRetries; attempt++)] loop;
    [totalCost] and [lastError] are the loop's local state, [fuel] bounds
    the number of iterations followed. *)
Fixpoint retry_loop (fuel attempt : nat) (totalCost : Q)
    (lastError : option DataForSEOError) : RetryResult T * list Event :=
  if negb (nat_le_num attempt maxRetries) then (ThrownLast lastError, [])
  else
  match fuel with
  | O => (Pending, [])
  | S fuel' =>
      match op attempt with
      | Resolve v => (Returned v, [Invoke attempt])
      | Reject error =>
          let e := handleApiError error in
          let totalCost' := (totalCost + or0 (cost e))%Q in
          if negb (retryable e) || nat_eq_num attempt maxRetries then
            (Thrown e, [Invoke attempt])
          else
            let delay := num_mul_pow2 baseDelay attempt in
            let '(r, evs) := retry_loop fuel' (S attempt) totalCost' (Some e) in
            (r, Invoke attempt :: Sleep delay :: evs)
      end
  end.

End WithRetry.

(** Iterations the model follows: the loop condition fails after
    [floor(maxRetries) + 1] iterations for a finite [maxRetries] and at
    once for [NaN] and [-Infinity]; with [Infinity] the loop may run
    forever and is followed for [fuel] iterations. *)
Definition loop_bound (maxRetries : JsNumber) (fuel : nat) : nat :=
  match maxRetries with
  | Num q => Z.to_nat (Qfloor q + 1)
  | Infinity => fuel
  | NaN | NegInfinity => O
  end.

(** [withRetry(operation, endpoint, maxRetries?, baseDelay?)]; an omitted
    (or [undefined]) argument is [None]. *)
Definition withRetry {T} (fuel : nat) (op : nat -> Outcome T)
    (maxRetries baseDelay : option JsNumber) : RetryResult T * list Event :=
  match param_or_default maxRetries default_maxRetries with
  | Throw m => (ThrownTypeError m, [])
  | Ok m =>
      match param_or_default baseDelay default_baseDelay with
      | Throw msg => (ThrownTypeError msg, [])
      | Ok b => retry_loop op m b (loop_bound m fuel) 0 0%Q None
      end
  end.

End ErrorHandlers.

(* ------------------------------------------------------------------------- *)
(** * Response envelope extraction (utils/dataForSEOResponseHandler.ts) *)

Module ResponseHandler.

Record DataForSEOTask (A : Type) := mkTask {
  task_status_code : option Z;
  task_status_message : option string;
  task_cost : option Q;
  task_result : option (list A)
}.
Arguments mkTask {A}.
Arguments task_status_code {A}.
Arguments task_status_message {A}.
Arguments task_cost {A}.
Arguments task_result {A}.

Record DataForSEOResponse (A : Type) := mkResponse {
  status_code : option Z;
  status_message : option string;
  resp_cost : option Q;
  tasks : option (list (DataForSEOTask A))
}.
Arguments mkResponse {A}.
Arguments status_code {A}.
Arguments status_message {A}.
Arguments resp_cost {A}.
Arguments tasks {A}.

Section Extract.
Context {A : Type}.

(** [extractFirstTaskResults]; [None] is a null/undefined response. *)
Definition extractFirstTaskResults (response : option (DataForSEOResponse A))
    : Res (list A) :=
  match option_map tasks response with
  | None | Some None | Some (Some []) =>
      Throw "Invalid DataForSEO response: no tasks found"
  | Some (Some (firstTask :: _)) =>
      if negb (match task_status_code firstTask with
               | Some c => Z.eqb c 20000 | None => false end)
      then Throw ("DataForSEO task failed: " ++ show_optstr (task_status_message firstTask)
                  ++ " (code: " ++ show_optZ (task_status_code firstTask) ++ ")")
      else Ok (match task_result firstTask with Some r => r | None => [] end)
  end.

(** [extractFirstResultItem] *)
Definition extractFirstResultItem (response : option (DataForSEOResponse A)) : Res A :=
  match extractFirstTaskResults response with
  | Throw m => Throw m
  | Ok [] => Throw "No results found in DataForSEO response"
  | Ok (r :: _) => Ok r
  end.

(** [getTotalCost] *)
Definition getTotalCost (response : option (DataForSEOResponse A)) : Q :=
  match response with
  | None => 0%Q
  | Some r =>
      match tasks r with
      | None => or0 (resp_cost r)
      | Some ts => fold_left (fun total t => (total + or0 (task_cost t))%Q) ts 0%Q
      end
  end.

End Extract.

End ResponseHandler.

(* ------------------------------------------------------------------------- *)
(** * Metric derivation (services/researchService.ts) *)

Module Metrics.

(** ** Trends *)

(** An element of [monthly_searches]. *)
Record MonthPoint := mkMonthPoint {
  year : option Z;
  month : option Z;
  search_volume : option Z
}.

(** [item.search_volume || 0] *)
Definition volume_of (m : MonthPoint) : Z :=
  match search_volume m with Some v => v | None => 0 end.

Definition sumZ (xs : list Z) : Z := fold_left Z.add xs 0.

Definition Qgt (a b : Q) : bool := negb (Qle_bool a b).

(** [xs.slice(-k)] *)
Definition slice_last {X} (k : nat) (xs : list X) : list X :=
  skipn (length xs - k) xs.

(** [xs.slice(-j, -k)] for [j >= k] *)
Definition slice_between {X} (j k : nat) (xs : list X) : list X :=
  skipn (length xs - j) (firstn (length xs - k) xs).

Definition avgQ (xs : list Z) : Q := (inject_Z (sumZ xs) / inject_Z (Z.of_nat (length xs)))%Q.

(** [`+${Math.round(c)}%`], [`${Math.round(c)}%`] or ['stable'] with a
    stability band of [band] percent. *)
Definition trend_string (band : Q) (change : Q) : string :=
  if Qgt change band then "+" ++ show_Z (js_round change) ++ "%"
  else if Qgt (- band) change then show_Z (js_round change) ++ "%"
  else "stable".

Definition calculateTrend (monthlySearches : list MonthPoint) : string :=
  if Nat.ltb (length monthlySearches) 2 then "no data" else
  let recent := slice_last 3 monthlySearches in
  let older := slice_between 6 3 monthlySearches in
  match recent, older with
  | [], _ | _, [] => "no data"
  | _, _ =>
      let recentAvg := avgQ (map volume_of recent) in
      let olderAvg := avgQ (map volume_of older) in
      if Qeq_bool olderAvg 0 then "no data" else
      let change := ((recentAvg - olderAvg) / olderAvg * 100)%Q in
      trend_string 10 change
  end.

(** The fields [calculateAdvancedTrend] adds once it has 3 or more points. *)
Record TrendDetails := mkTrendDetails {
  year_over_year_growth : option Q;
  peak_month : option Z;
  low_month : option Z;
  historical_months : nat;
  avg_monthly_volume : Z
}.

Record AdvancedTrend := mkAdvancedTrend {
  monthly_trend : string;
  quarterly_trend : string;
  yearly_trend : string;
  seasonality : string;
  volatility : string;
  details : option TrendDetails
}.

Definition maxZ (xs : list Z) : Z :=
  match xs with [] => 0 | x :: r => fold_left Z.max r x end.
Definition minZ (xs : list Z) : Z :=
  match xs with [] => 0 | x :: r => fold_left Z.min r x end.

(** [xs.indexOf(v)] *)
Fixpoint indexOf (xs : list Z) (v : Z) : option nat :=
  match xs with
  | [] => None
  | x :: r => if Z.eqb x v then Some 0%nat
              else option_map S (indexOf r v)
  end.

(** [monthlySearches[i]?.month || null] *)
Definition month_at (ms : list MonthPoint) (i : option nat) : option Z :=
  match i with
  | None => None
  | Some i =>
      match nth_error ms i with
      | Some m => match month m with Some 0 | None => None | Some x => Some x end
      | None => None
      end
  end.

(** [sqrt(variance) / mean > t], decided without the square root: for
    [mean > 0] and [t >= 0] it is [variance > (t * mean)^2]; for
    [mean <= 0] the code uses volatility [0]. *)
Definition volatility_gt (variance mean t : Q) : bool :=
  Qgt mean 0 && Qgt variance (t * mean * (t * mean)).

Definition calculateAdvancedTrend (monthlySearches : list MonthPoint) : AdvancedTrend :=
  if Nat.ltb (length monthlySearches) 3 then
    mkAdvancedTrend "insufficient_data" "insufficient_data" "insufficient_data"
      "unknown" "unknown" None
  else
  let volumes := map volume_of monthlySearches in
  let totalMonths := length volumes in
  let monthlyTrend := calculateTrend monthlySearches in
  let quarterlyTrend :=
    if Nat.leb 6 totalMonths then
      let lastQuarterAvg := (inject_Z (sumZ (slice_last 3 volumes)) / 3)%Q in
      let prevQuarterAvg := (inject_Z (sumZ (slice_between 6 3 volumes)) / 3)%Q in
      if Qgt prevQuarterAvg 0 then
        trend_string 15 ((lastQuarterAvg - prevQuarterAvg) / prevQuarterAvg * 100)%Q
      else "insufficient_data"
    else "insufficient_data" in
  let '(yearlyTrend, yearOverYearGrowth) :=
    if Nat.leb 24 totalMonths then
      let currentYearTotal := inject_Z (sumZ (slice_last 12 volumes)) in
      let previousYearTotal := inject_Z (sumZ (slice_between 24 12 volumes)) in
      if Qgt previousYearTotal 0 then
        let g := ((currentYearTotal - previousYearTotal) / previousYearTotal * 100)%Q in
        (trend_string 20 g, Some g)
      else ("insufficient_data", None)
    else if Nat.leb 12 totalMonths then
      let firstHalfAvg := avgQ (firstn 6 volumes) in
      let lastHalfAvg := avgQ (slice_last 6 volumes) in
      if Qgt firstHalfAvg 0 then
        (trend_string 25 ((lastHalfAvg - firstHalfAvg) / firstHalfAvg * 100)%Q, None)
      else ("insufficient_data", None)
    else ("insufficient_data", None) in
  let maxVolume := maxZ volumes in
  let minVolume := minZ volumes in
  let seasonality :=
    if Z.ltb 0 maxVolume then
      let variationPercent :=
        (inject_Z (maxVolume - minVolume) / inject_Z maxVolume * 100)%Q in
      if Qgt variationPercent 60 then "very_high"
      else if Qgt variationPercent 40 then "high"
      else if Qgt variationPercent 25 then "medium"
      else "low"
    else "low" in
  let mean := avgQ volumes in
  let variance :=
    (fold_left (fun acc v => acc + (inject_Z v - mean) * (inject_Z v - mean)) volumes 0
     / inject_Z (Z.of_nat totalMonths))%Q in
  let volatility :=
    if volatility_gt variance mean (4 # 10) then "very_high"
    else if volatility_gt variance mean (3 # 10) then "high"
    else if volatility_gt variance mean (15 # 100) then "medium"
    else "low" in
  mkAdvancedTrend monthlyTrend quarterlyTrend yearlyTrend seasonality volatility
    (Some (mkTrendDetails yearOverYearGrowth
             (month_at monthlySearches (indexOf volumes maxVolume))
             (month_at monthlySearches (indexOf volumes minVolume))
             totalMonths (js_round mean))).

(** ** Competition level *)

(** [competition_level] of [getGoogleKeywordData], from
    [keywordData.competition || 0]. *)
Definition competitionLevel (competition : option Q) : string :=
  let c := or0 competition in
  if Qgt c (7 # 10) then "high"
  else if Qgt c (4 # 10) then "medium"
  else "low".

(** [overall_competition] of [generateKeywordSummary] when Google data is
    present, from [searchEngines.google.competition || 0]. *)
Definition overallCompetition (competition : option Q) : string :=
  let c := or0 competition in
  if Qgt c (7 # 10) then "high"
  else if Qgt c (4 # 10) then "medium"
  else "low".

(** ** SERP features *)

(** A SERP item, with the fields the analyses read. [rating] is
    [ad.rating] with its [value]; [rectangle_items] is [ad.rectangle.items]. *)
Record SerpItem := mkSerpItem {
  type : option string;
  domain : option string;
  title : option string;
  description : option string;
  ad_aclk : option string;
  rating : option (option Q);
  price_range : option string;
  rectangle_items : option (option (list string));
  website_name : option string
}.

(** The [if (result.type === ...) features.push(...)] chain, in order. *)
Definition serp_feature_table : list (string * string) :=
  [("people_also_ask", "people_also_ask"); ("knowledge_graph", "knowledge_graph");
   ("featured_snippet", "featured_snippet"); ("local_pack", "local_pack");
   ("shopping", "shopping"); ("images", "images"); ("videos", "videos");
   ("top_stories", "news"); ("related_searches", "related_searches");
   ("ai_overview", "ai_overview"); ("answer_box", "answer_box"); ("jobs", "jobs");
   ("local_services", "local_services"); ("reviews", "reviews")].

Definition type_is (r : SerpItem) (t : string) : bool :=
  match type r with Some t' => String.eqb t' t | None => false end.

Definition pushed_features (r : SerpItem) : list string :=
  map snd (filter (fun kv => type_is r (fst kv)) serp_feature_table).

Definition analyzeSerpFeatures (serpResults : list SerpItem) : list string :=
  dedup (flat_map pushed_features serpResults).

Definition content_opportunities_of (feature : string) : list string :=
  if String.eqb feature "people_also_ask" then
    ["Create comprehensive FAQ content"; "Target question-based keywords"]
  else if String.eqb feature "featured_snippet" then
    ["Optimize for featured snippets with structured content"; "Use clear headings and concise answers"]
  else if String.eqb feature "images" then
    ["Include high-quality visual content"; "Optimize image alt text and file names"]
  else if String.eqb feature "videos" then
    ["Create video content strategy"; "Optimize for YouTube SEO"]
  else if String.eqb feature "news" then
    ["Focus on timely, newsworthy content"; "Establish content publishing frequency"]
  else if String.eqb feature "local_pack" then
    ["Optimize for local SEO"; "Focus on location-based keywords"]
  else if String.eqb feature "shopping" then
    ["Include product-focused content"; "Add e-commerce optimization"]
  else if String.eqb feature "knowledge_graph" then
    ["Build entity authority and brand recognition"; "Focus on structured data markup"]
  else if String.eqb feature "related_searches" then
    ["Research semantic and related keywords"; "Create topic clusters around main keyword"]
  else if String.eqb feature "ai_overview" then
    ["Create authoritative, comprehensive content"; "Focus on E-A-T (Expertise, Authority, Trust)"]
  else [].

(** The CTR-impact [switch]: the amount subtracted for one feature. *)
Definition ctr_penalty (feature : string) : Z :=
  if String.eqb feature "featured_snippet" then 8
  else if String.eqb feature "people_also_ask" then 5
  else if String.eqb feature "images" then 4
  else if String.eqb feature "videos" then 6
  else if String.eqb feature "shopping" then 7
  else if String.eqb feature "local_pack" then 10
  else if String.eqb feature "knowledge_graph" then 3
  else if String.eqb feature "news" then 5
  else if String.eqb feature "ai_overview" then 12
  else 2.

Record SerpStrategy := mkSerpStrategy {
  feature_count : nat;
  organic_competition : string;
  estimated_ctr_impact : Z;
  content_opportunities : list string;
  competition_indicators : list string;
  strategic_priority : string
}.

Definition analyzeSerpStrategy (serpFeatures : list string) : SerpStrategy :=
  let featureCount := length serpFeatures in
  let contentOpportunities := flat_map content_opportunities_of serpFeatures in
  let competitionIndicators :=
    if Nat.leb 5 featureCount then
      ["Very high SERP competition"; "Multiple features competing for clicks"]
    else if Nat.leb 3 featureCount then
      ["Moderate SERP competition"; "Several features present"]
    else if Nat.leb 1 featureCount then
      ["Some SERP competition"; "Limited features competing"]
    else ["Clean organic SERP"; "Traditional search results"] in
  let ctrImpact := fold_left (fun acc f => acc - ctr_penalty f) serpFeatures 0 in
  let organicDifficulty :=
    if Nat.leb 4 featureCount then "very_high"
    else if Nat.leb 3 featureCount then "high"
    else if Nat.leb 2 featureCount then "medium"
    else "low" in
  mkSerpStrategy featureCount organicDifficulty (Z.max ctrImpact (-50))
    (dedup contentOpportunities) (dedup competitionIndicators)
    (if Nat.leb 3 featureCount then "high_competition_strategy" else "standard_seo_approach").

(** ** Paid competition *)

Definition calculateAdQuality (ad : SerpItem) : Q :=
  let q0 := 5%Q in
  let q1 :=
    match title ad with
    | Some t =>
        if String.eqb t "" then q0 else
        let titleLength := Z.of_nat (String.length t) in
        let qa := if Z.leb 30 titleLength && Z.leb titleLength 60 then (q0 + 1)%Q else q0 in
        if includes t "|" || includes t "-" then (qa + (1 # 2))%Q else qa
    | None => q0
    end in
  let q2 :=
    match description ad with
    | Some d => if Nat.leb 80 (String.length d) then (q1 + 1)%Q else q1
    | None => q1
    end in
  let q3 := if truthy_str (ad_aclk ad) then (q2 + (1 # 2))%Q else q2 in
  let q4 :=
    match rating ad with
    | Some (Some v) => if Qle_bool 4 v then (q3 + (3 # 2))%Q else q3
    | _ => q3
    end in
  let q5 := if truthy_str (price_range ad) then (q4 + (1 # 2))%Q else q4 in
  let q6 :=
    match rectangle_items ad with
    | Some (Some (_ :: _)) => (q5 + 1)%Q
    | _ => q5
    end in
  let q7 := if truthy_str (website_name ad) then (q6 + (1 # 2))%Q else q6 in
  Qmin q7 10.

Definition generatePaidCompetitionInsights (adsCount : nat) (domains : list string)
    (avgQuality : Q) (platform : string) : list string :=
  let c :=
    if Nat.leb 8 adsCount then
      ["Extremely competitive paid landscape"; "High CPC expected - consider long-tail targeting";
       "Quality Score optimization critical for success"]
    else if Nat.leb 5 adsCount then
      ["Highly competitive paid market"; "Focus on ad quality and landing page optimization"]
    else if Nat.leb 3 adsCount then
      ["Moderate paid competition"; "Good opportunity with proper targeting"]
    else if Nat.ltb 0 adsCount then
      ["Limited paid competition"; "Opportunity for market entry with lower CPC"]
    else [] in
  let uniqueDomains := length domains in
  let d :=
    if Nat.eqb uniqueDomains adsCount then
      ["Diverse advertiser base - no single dominant player"]
    else if Nat.ltb (2 * uniqueDomains) adsCount then
      ["Few advertisers running multiple ads - aggressive competition"]
    else [] in
  let q :=
    if Qle_bool 8 avgQuality then
      ["High-quality ads with rich features - premium competition";
       "Invest in professional ad copy and extensions"]
    else if Qle_bool 6 avgQuality then
      ["Standard ad quality - opportunity for differentiation"]
    else if Qgt 5 avgQuality then
      ["Room for improvement in ad quality - competitive advantage possible"]
    else [] in
  let p :=
    if String.eqb platform "bing" then
      "Bing audience may have different intent - test messaging variations" ::
      (if Nat.ltb adsCount 5 then ["Less competition on Bing - potential for better ROI"] else [])
    else if String.eqb platform "google" then
      ["Google Ads competition - focus on Quality Score factors"]
    else [] in
  (c ++ d ++ q ++ p)%list.

(** The [paid_competition] object of [analyzePaidCompetition], with the
    fields the claims read ([ad_positions], [top_advertisers] and
    [ad_features] are not modelled). *)
Record PaidCompetition := mkPaidCompetition {
  ads_count : nat;
  paid_competition_level : string;
  advertiser_domains : list string;
  average_ad_quality : option Q;
  strategic_insights : list string
}.

Definition analyzePaidCompetition (serpResults : list SerpItem) (platform : string)
    : PaidCompetition :=
  let paidResults := filter (fun r => type_is r "paid") serpResults in
  match paidResults with
  | [] =>
      mkPaidCompetition 0 "none" [] None
        ["No paid competition detected"; "Opportunity for paid advertising entry";
         "Lower cost-per-click expected"]
  | _ =>
      let advertiserDomains :=
        dedup (flat_map (fun ad => match domain ad with
                                   | Some d => if String.eqb d "" then [] else [d]
                                   | None => [] end) paidResults) in
      let adQualityScores := map calculateAdQuality paidResults in
      let avgAdQuality :=
        (fold_left Qplus adQualityScores 0 / inject_Z (Z.of_nat (length adQualityScores)))%Q in
      let n := length paidResults in
      let competitionLevel :=
        if Nat.leb 8 n then "very_high"
        else if Nat.leb 5 n then "high"
        else if Nat.leb 3 n then "medium"
        else "low" in
      mkPaidCompetition n competitionLevel advertiserDomains
        (Some (inject_Z (js_round (avgAdQuality * 10)) / 10)%Q)
        (generatePaidCompetitionInsights n advertiserDomains avgAdQuality platform)
  end.

End Metrics.

(* ------------------------------------------------------------------------- *)
(** * Source adapters and single-source orchestrator (services/researchService.ts) *)

Module Adapters.
Import ResponseHandler Metrics.

Definition lower_ascii (c : ascii) : ascii :=
  let n := nat_of_ascii c in
  if Nat.leb 65 n && Nat.leb n 90 then ascii_of_nat (n + 32) else c.

(** [String.prototype.toLowerCase] on ASCII text. *)
Fixpoint toLowerCase (s : string) : string :=
  match s with
  | EmptyString => EmptyString
  | String c r => String (lower_ascii c) (toLowerCase r)
  end.

Definition determineSearchIntent (serpResults : list SerpItem) (keyword : string) : string :=
  let k := toLowerCase keyword in
  if includes k "buy" || includes k "purchase" || includes k "price" || includes k "cost"
  then "commercial"
  else if includes k "download" || includes k "signup" || includes k "subscribe"
          || includes k "free trial"
  then "transactional"
  else if includes k "login" || includes k "website" || includes k "official site"
  then "navigational"
  else if existsb (fun r => type_is r "shopping") serpResults then "commercial"
  else if existsb (fun r => type_is r "local_pack") serpResults then "local"
  else "informational".

(** An element of a SERP task's [result]: a wrapper carrying [items], or
    (for endpoints that return them directly) a SERP item. *)
Inductive SerpEntry :=
| SerpWrapper (items : list SerpItem)
| SerpPlain (item : SerpItem).

Definition empty_item : SerpItem :=
  mkSerpItem None None None None None None None None None.

Definition entry_as_item (e : SerpEntry) : SerpItem :=
  match e with SerpWrapper _ => empty_item | SerpPlain i => i end.

(** [DataForSEOExtractors.serpResults] *)
Definition serpResults (response : option (DataForSEOResponse SerpEntry))
    : Res (list SerpItem) :=
  match extractFirstTaskResults response with
  | Throw m => Throw m
  | Ok (SerpWrapper items :: _) => Ok items
  | Ok results => Ok (map entry_as_item results)
  end.

(** An element of the keyword-data task's [result]. *)
Record KeywordItem := mkKeywordItem {
  kw_search_volume : option Z;
  kw_competition : option Q;
  kw_cpc : option Q;
  kw_monthly_searches : option (list MonthPoint)
}.

Definition empty_keyword_item : KeywordItem := mkKeywordItem None None None None.

(** The default [paid_competition] object when no analysis is available. *)
Definition no_paid_data : PaidCompetition :=
  mkPaidCompetition 0 "none" [] None ["No paid competition data available"].

Record GoogleKeywordData := mkGoogleKeywordData {
  g_search_volume : Z;
  g_competition : Q;
  g_cpc : Q;
  g_competition_level : string;
  g_monthly_searches : list MonthPoint;
  g_serp_features : list string;
  g_serp_analysis : SerpStrategy;
  g_intent : string;
  g_trend : string;
  g_paid_competition : PaidCompetition
}.

(** [getGoogleKeywordData]. Its three upstream calls are inputs: what the
    keyword-data request, the organic SERP request and the paid-ads request
    resolve to (an envelope) or throw. On success the result is the [data]
    object and the [cost]. *)
Definition getGoogleKeywordData (keyword : string)
    (keywordResponse : Res (option (DataForSEOResponse KeywordItem)))
    (serpResponse paidResponse : Res (option (DataForSEOResponse SerpEntry)))
    : Res (GoogleKeywordData * Q) :=
  match keywordResponse with
  | Throw m => Throw m
  | Ok kresp =>
  match extractFirstTaskResults kresp with
  | Throw m => Throw m
  | Ok keywordResults =>
      let keywordCost := getTotalCost kresp in
      (* the SERP request: its failure is caught and logged *)
      let '(serpFeatures, intent, paid0) :=
        match serpResponse with
        | Ok sresp =>
            match serpResults sresp with
            | Ok items =>
                (analyzeSerpFeatures items, determineSearchIntent items keyword,
                 Some (analyzePaidCompetition items "google"))
            | Throw _ => ([], "unknown", None)
            end
        | Throw _ => ([], "unknown", None)
        end in
      (* the dedicated paid-ads request, tried when no ad was found *)
      let paid :=
        match paid0 with
        | Some pc => match ads_count pc with O => None | S _ => Some pc end
        | None => None
        end in
      let paid :=
        match paid with
        | Some pc => Some pc
        | None =>
            match paidResponse with
            | Ok presp =>
                match serpResults presp with
                | Ok items => Some (analyzePaidCompetition items "google")
                | Throw _ => paid0
                end
            | Throw _ => paid0
            end
        end in
      let keywordData :=
        match keywordResults with k :: _ => k | [] => empty_keyword_item end in
      let competition := or0 (kw_competition keywordData) in
      let monthly := match kw_monthly_searches keywordData with Some m => m | None => [] end in
      Ok (mkGoogleKeywordData
            (match kw_search_volume keywordData with Some v => v | None => 0 end)
            competition (or0 (kw_cpc keywordData))
            (competitionLevel (kw_competition keywordData))
            monthly serpFeatures (analyzeSerpStrategy serpFeatures) intent
            (calculateTrend monthly)
            (match paid with Some pc => pc | None => no_paid_data end),
          keywordCost)
  end
  end.

(** The HTTP response of a [fetch] whose promise resolved. *)
Record FetchResponse (A : Type) := mkFetchResponse {
  ok : bool;
  http_status : Z;
  status_text : string;
  json : option (DataForSEOResponse A)
}.
Arguments mkFetchResponse {A}.
Arguments ok {A}.
Arguments http_status {A}.
Arguments status_text {A}.
Arguments json {A}.

(** An element of [result[0].items] of the difficulty endpoint. *)
Record DifficultyItem := mkDifficultyItem {
  d_keyword : string;
  keyword_difficulty : option Z
}.

(** A [result] element of the difficulty endpoint. *)
Record DifficultyResult := mkDifficultyResult {
  d_items : option (list DifficultyItem)
}.

Record KeywordDifficulty := mkKeywordDifficulty {
  difficulty_score : option Z;
  complexity : string;
  difficulty_level : string;
  api_error : option string
}.

Definition complexity_of (difficultyScore : Z) : string :=
  if Z.ltb 80 difficultyScore then "very_hard"
  else if Z.ltb 60 difficultyScore then "hard"
  else if Z.ltb 40 difficultyScore then "medium"
  else if Z.ltb 20 difficultyScore then "moderate"
  else "easy".

(** The body of [getKeywordDifficulty] and [getBingKeywordDifficulty]
    (they differ only in endpoint and log text); [engine] is ["Google"] or
    ["Bing"]. Every failure inside the [try] is caught. *)
Definition keyword_difficulty_call (engine keyword : string)
    (response : Res (FetchResponse DifficultyResult)) : KeywordDifficulty * Q :=
  let failed (msg : string) :=
    (mkKeywordDifficulty None "unknown" "unknown" (Some msg), 0%Q) in
  match response with
  | Throw m => failed m
  | Ok resp =>
      if negb (ok resp) then
        failed (engine ++ " keyword difficulty API failed: " ++ show_Z (http_status resp)
                ++ " " ++ status_text resp)
      else
      match json resp with
      | None => failed "Cannot read properties of null (reading 'status_code')"
      | Some result =>
          if negb (match status_code result with Some c => Z.eqb c 20000 | None => false end)
          then failed (engine ++ " keyword difficulty API error: " ++ show_optstr (status_message result))
          else
          let firstTask := match tasks result with Some (t :: _) => Some t | _ => None end in
          let difficultyItems :=
            match firstTask with
            | Some t => match task_result t with
                        | Some (r :: _) => match d_items r with Some it => it | None => [] end
                        | _ => []
                        end
            | None => []
            end in
          let cost := match firstTask with Some t => or0 (task_cost t) | None => 0%Q end in
          match find (fun it => String.eqb (d_keyword it) keyword) difficultyItems with
          | None => (mkKeywordDifficulty None "unknown" "unknown" None, cost)
          | Some keywordResult =>
              let difficultyScore :=
                match keyword_difficulty keywordResult with Some d => d | None => 0 end in
              (mkKeywordDifficulty (Some difficultyScore) (complexity_of difficultyScore)
                 (if Z.ltb 70 difficultyScore then "high"
                  else if Z.ltb 40 difficultyScore then "medium" else "low") None, cost)
          end
      end
  end.

Definition getKeywordDifficulty (keyword : string)
    (response : Res (FetchResponse DifficultyResult)) : KeywordDifficulty * Q :=
  keyword_difficulty_call "Google" keyword response.

Definition getBingKeywordDifficulty (keyword : string)
    (response : Res (FetchResponse DifficultyResult)) : KeywordDifficulty * Q :=
  keyword_difficulty_call "Bing" keyword response.

Record BingKeywordData := mkBingKeywordData {
  b_results : list SerpItem;
  b_serp_features : list string;
  b_serp_analysis : SerpStrategy;
  b_intent : string;
  b_paid_competition : PaidCompetition
}.

Definition getBingKeywordData (keyword : string)
    (response : Res (FetchResponse SerpEntry)) : Res (BingKeywordData * Q) :=
  match response with
  | Throw m => Throw m
  | Ok resp =>
      if negb (ok resp) then Throw ("HTTP error! status: " ++ show_Z (http_status resp)) else
      match serpResults (json resp) with
      | Throw m => Throw m
      | Ok items =>
          let features := analyzeSerpFeatures items in
          Ok (mkBingKeywordData items features (analyzeSerpStrategy features)
                (determineSearchIntent items keyword) (analyzePaidCompetition items "bing"),
              getTotalCost (json resp))
      end
  end.

(** An entry of [search_engines]: an adapter's data; for Google and Bing
    merged with the [difficulty_score] and [complexity] of the difficulty
    call and with [advanced_trends]. *)
Inductive EngineEntry (Y : Type) :=
| GoogleEntry (d : GoogleKeywordData) (difficulty_score : option Z) (complexity : string)
    (advanced_trends : AdvancedTrend)
| BingEntry (d : BingKeywordData) (difficulty_score : option Z) (complexity : string)
    (advanced_trends : AdvancedTrend)
| YouTubeEntry (d : Y).
Arguments GoogleEntry {Y}.
Arguments BingEntry {Y}.
Arguments YouTubeEntry {Y}.

Record KeywordIntelligenceResult (Y : Type) := mkKeywordIntelligenceResult {
  search_engines : list (string * EngineEntry Y);
  sources_queried : list string;
  total_cost : Q
}.
Arguments mkKeywordIntelligenceResult {Y}.
Arguments search_engines {Y}.
Arguments sources_queried {Y}.
Arguments total_cost {Y}.

(** The upstream outcomes one request runs into, per source. The YouTube
    adapter's data is kept abstract ([Y]); its outcome is an input. *)
Record Upstream (Y : Type) := mkUpstream {
  up_google_keywords : Res (option (DataForSEOResponse KeywordItem));
  up_google_serp : Res (option (DataForSEOResponse SerpEntry));
  up_google_paid : Res (option (DataForSEOResponse SerpEntry));
  up_google_difficulty : Res (FetchResponse DifficultyResult);
  up_bing_serp : Res (FetchResponse SerpEntry);
  up_bing_difficulty : Res (FetchResponse DifficultyResult);
  up_youtube : Res (Y * Q)
}.
Arguments mkUpstream {Y}.
Arguments up_google_keywords {Y}.
Arguments up_google_serp {Y}.
Arguments up_google_paid {Y}.
Arguments up_google_difficulty {Y}.
Arguments up_bing_serp {Y}.
Arguments up_bing_difficulty {Y}.
Arguments up_youtube {Y}.

(** [getKeywordIntelligence] of researchService.ts (one [source]); the
    [summary] field is not modelled. *)
Definition getKeywordIntelligence {Y} (keyword source : string) (up : Upstream Y)
    : Res (KeywordIntelligenceResult Y) :=
  if String.eqb source "google" then
    let googleDifficultyData := getKeywordDifficulty keyword (up_google_difficulty up) in
    match getGoogleKeywordData keyword (up_google_keywords up) (up_google_serp up)
            (up_google_paid up) with
    | Throw m => Throw m
    | Ok (gd, gcost) =>
        Ok (mkKeywordIntelligenceResult
              [("google", GoogleEntry gd (difficulty_score (fst googleDifficultyData))
                            (complexity (fst googleDifficultyData))
                            (calculateAdvancedTrend (g_monthly_searches gd)))]
              ["google"] (gcost + snd googleDifficultyData)%Q)
    end
  else if String.eqb source "bing" then
    let bingDifficultyData := getBingKeywordDifficulty keyword (up_bing_difficulty up) in
    match getBingKeywordData keyword (up_bing_serp up) with
    | Throw m => Throw m
    | Ok (bd, bcost) =>
        (* [bingData.data.monthly_searches] is undefined: [|| []] *)
        Ok (mkKeywordIntelligenceResult
              [("bing", BingEntry bd (difficulty_score (fst bingDifficultyData))
                          (complexity (fst bingDifficultyData)) (calculateAdvancedTrend []))]
              ["bing"] (bcost + snd bingDifficultyData)%Q)
    end
  else if String.eqb source "youtube" then
    match up_youtube up with
    | Throw m => Throw m
    | Ok (yd, ycost) => Ok (mkKeywordIntelligenceResult [("youtube", YouTubeEntry yd)] ["youtube"] ycost)
    end
  else Ok (mkKeywordIntelligenceResult [] [] 0%Q).

End Adapters.

(* ------------------------------------------------------------------------- *)
(** * Multi-source orchestrator (the [sources]-list [getKeywordIntelligence]) *)

Module MultiSource.

Section Orchestrator.
(** The data each adapter returns; the adapters themselves are the
    upstream-dependent calls, whose outcome is an input here. *)
Context {G B Y : Type}.

Record KeywordIntelligenceResult := mkKeywordIntelligenceResult {
  google : option G;
  bing : option B;
  youtube : option Y;
  sources_queried : list string;
  total_cost : Q
}.

(** [sources.includes(s) || sources.includes('all')] *)
Definition requested (sources : list string) (s : string) : bool :=
  existsb (String.eqb s) sources || existsb (String.eqb "all") sources.

(** [getKeywordIntelligence]: [sources] defaults to [['google']]; each
    adapter call is wrapped in its own [try]/[catch] that only logs. The
    outer [catch] rethrows what [generateKeywordSummary] throws, and that
    function does not throw, so the result is returned directly (the
    [summary] field is not modelled). *)
Definition getKeywordIntelligence (sources : option (list string))
    (googleCall : Res (G * Q)) (bingCall : Res (B * Q)) (youtubeCall : Res (Y * Q))
    : KeywordIntelligenceResult :=
  let sources := match sources with Some l => l | None => ["google"] end in
  let '(g, cost1, q1) :=
    if requested sources "google" then
      match googleCall with
      | Ok (d, c) => (Some d, c, ["google"])
      | Throw _ => (None, 0%Q, [])
      end
    else (None, 0%Q, []) in
  let '(b, cost2, q2) :=
    if requested sources "bing" then
      match bingCall with
      | Ok (d, c) => (Some d, c, ["bing"])
      | Throw _ => (None, 0%Q, [])
      end
    else (None, 0%Q, []) in
  let '(y, cost3, q3) :=
    if requested sources "youtube" then
      match youtubeCall with
      | Ok (d, c) => (Some d, c, ["youtube"])
      | Throw _ => (None, 0%Q, [])
      end
    else (None, 0%Q, []) in
  mkKeywordIntelligenceResult g b y (q1 ++ q2 ++ q3)%list (0 + cost1 + cost2 + cost3)%Q.

End Orchestrator.

End MultiSource.

(* ------------------------------------------------------------------------- *)
(** * All-task extraction, validation report and response summary
      (utils/dataForSEOResponseHandler.ts) *)

Module ResponseAnalysis.
Import ResponseHandler.

(** [status_code === 20000] on an optional code. *)
Definition is_20000 (c : option Z) : bool :=
  match c with Some c => Z.eqb c 20000 | None => false end.

Definition task_ok {A} (task : DataForSEOTask A) : bool := is_20000 (task_status_code task).

(** [extractAllResults]: the results of every successful task, in order; a
    failed task is skipped (its [console.warn] is not modelled). *)
Definition extractAllResults {A} (response : option (DataForSEOResponse A)) : Res (list A) :=
  match option_map tasks response with
  | None | Some None => Throw "Invalid DataForSEO response: missing tasks array"
  | Some (Some ts) =>
      Ok (flat_map (fun task =>
                      if task_ok task then
                        match task_result task with Some r => r | None => [] end
                      else []) ts)
  end.

(** The report of [DataForSEOResponseHandler.validateResponse]. *)
Record Validation := mkValidation {
  isValid : bool;
  errors : list string;
  warnings : list string
}.

(** The per-task warnings of the [for] loop; [i] is the 1-based task number. *)
Fixpoint task_warnings {A} (i : nat) (ts : list (DataForSEOTask A)) : list string :=
  match ts with
  | [] => []
  | task :: rest =>
      ((if task_ok task then []
        else [("Task " ++ show_Z (Z.of_nat i) ++ " failed: "
               ++ show_optstr (task_status_message task)
               ++ " (code: " ++ show_optZ (task_status_code task) ++ ")")%string])
       ++ (match task_result task with
           | Some _ => []
           | None => [("Task " ++ show_Z (Z.of_nat i) ++ " has no results")%string]
           end)
       ++ task_warnings (S i) rest)%list
  end.

Definition validateResponse {A} (response : option (DataForSEOResponse A)) : Validation :=
  match response with
  | None => mkValidation false ["Response is null or undefined"] []
  | Some r =>
      let errors :=
        if is_20000 (status_code r) then []
        else ["API request failed: " ++ show_optstr (status_message r)
              ++ " (code: " ++ show_optZ (status_code r) ++ ")"] in
      match tasks r with
      | None => mkValidation false (errors ++ ["Missing or invalid tasks array"])%list []
      | Some ts =>
          let warnings :=
            ((match ts with [] => ["No tasks found in response"] | _ => [] end)
             ++ task_warnings 1 ts)%list in
          mkValidation (match errors with [] => true | _ => false end) errors warnings
      end
  end.

(** [getResponseSummary] ([responseTime] is not modelled). *)
Record ResponseSummary := mkResponseSummary {
  totalCost : Q;
  totalTasks : nat;
  successfulTasks : nat;
  failedTasks : nat;
  totalResults : nat;
  summary_warnings : list string
}.

Definition getResponseSummary {A} (response : option (DataForSEOResponse A)) : ResponseSummary :=
  let validation := validateResponse response in
  let ts := match option_map tasks response with Some (Some ts) => ts | _ => [] end in
  let successful := filter task_ok ts in
  let totalResults :=
    fold_left (fun total task =>
                 (total + match task_result task with Some r => length r | None => 0 end)%nat)
              successful 0%nat in
  mkResponseSummary (getTotalCost response) (length ts) (length successful)
    (length ts - length successful) totalResults (warnings validation).

End ResponseAnalysis.

(* ------------------------------------------------------------------------- *)
(** * Envelope validation and the API-call wrapper
      (utils/dataForSEOErrorHandlers.ts) *)

Module ApiCall.
Import ErrorHandlers ResponseHandler ResponseAnalysis.

(** [x.status_code || 500]: a missing or zero code reads as 500. *)
Definition code_or_500 (c : option Z) : Z :=
  match c with Some c => if Z.eqb c 0 then 500 else c | None => 500 end.

(** [validateResponse] of the error handlers: [None] when it returns, [Some e]
    when it throws the [DataForSEOError] [e]. *)
Definition validateResponse {A} (response : option (DataForSEOResponse A))
    : option DataForSEOError :=
  match response with
  | None => Some (newDataForSEOError 500 "Empty response from DataForSEO API" None None)
  | Some r =>
      if negb (is_20000 (status_code r)) then
        Some (newDataForSEOError (code_or_500 (status_code r))
                (or_str (status_message r) "DataForSEO API error") None
                (Some (or0 (resp_cost r))))
      else
      match tasks r with
      | None | Some [] =>
          Some (newDataForSEOError 404 "No data returned from DataForSEO API" None
                  (Some (or0 (resp_cost r))))
      | Some (task :: _) =>
          if negb (is_20000 (task_status_code task)) then
            Some (newDataForSEOError (code_or_500 (task_status_code task))
                    (or_str (task_status_message task) "DataForSEO task failed") None
                    (Some (or0 (resp_cost r))))
          else None
      end
  end.

(** The closure [executeApiCall] hands to [withRetry]: the operation's
    envelope is validated inside it. *)
Definition validated_operation {A} (operation : nat -> Outcome (option (DataForSEOResponse A)))
    (n : nat) : Outcome (option (DataForSEOResponse A)) :=
  match operation n with
  | Reject e => Reject e
  | Resolve response =>
      match validateResponse response with
      | Some e => Reject (ErrDataForSEO e)
      | None => Resolve response
      end
  end.

(** [executeApiCall]: [withRetry] is called without [maxRetries] and
    [baseDelay], so their default expressions are evaluated. *)
Definition executeApiCall {A} (fuel : nat)
    (operation : nat -> Outcome (option (DataForSEOResponse A)))
    : RetryResult (option (DataForSEOResponse A)) * list Event :=
  withRetry fuel (validated_operation operation) None None.

(** [isRetryableError] *)
Definition isRetryableError (error : JsError) : bool :=
  match error with ErrDataForSEO e => retryable e | _ => false end.

End ApiCall.

(* ------------------------------------------------------------------------- *)
(** * YouTube adapter and its helpers (services/researchService.ts) *)

Module YouTube.
Import ResponseHandler Metrics Adapters.

(** A video of the YouTube SERP, with the fields the helpers read. *)
Record VideoItem := mkVideoItem {
  views_count : option Z;
  video_title : option string
}.

(** An element of the video SERP task's [result]: a wrapper carrying
    [items], or a video. *)
Inductive VideoEntry :=
| VideoWrapper (items : list VideoItem)
| VideoPlain (video : VideoItem).

Definition empty_video : VideoItem := mkVideoItem None None.

Definition video_entry_as_item (e : VideoEntry) : VideoItem :=
  match e with VideoWrapper _ => empty_video | VideoPlain v => v end.

(** [DataForSEOExtractors.serpResults] on the video SERP envelope. *)
Definition videoResultsOf (response : option (DataForSEOResponse VideoEntry))
    : Res (list VideoItem) :=
  match extractFirstTaskResults response with
  | Throw m => Throw m
  | Ok (VideoWrapper items :: _) => Ok items
  | Ok results => Ok (map video_entry_as_item results)
  end.

(** [video.views_count || 0] *)
Definition views_of (video : VideoItem) : Z :=
  match views_count video with Some v => v | None => 0 end.

Record VideoEngagement := mkVideoEngagement {
  average_views : Z;
  high_engagement_count : nat;
  total_videos_analyzed : option nat
}.

Definition analyzeVideoEngagement (videoResults : list VideoItem) : VideoEngagement :=
  match videoResults with
  | [] => mkVideoEngagement 0 0 None
  | _ =>
      let '(totalViews, highEngagementCount) :=
        fold_left (fun acc video =>
                     let '(totalViews, highEngagementCount) := acc in
                     let views := views_of video in
                     (totalViews + views,
                      if Z.ltb 100000 views then S highEngagementCount else highEngagementCount))
                  videoResults (0, 0%nat) in
      mkVideoEngagement
        (js_round (inject_Z totalViews / inject_Z (Z.of_nat (length videoResults)))%Q)
        highEngagementCount (Some (length videoResults))
  end.

(** The themes one (lower-cased) title pushes, in the order of the [if]s. *)
Definition video_themes (title : string) : list string :=
  ((if includes title "tutorial" || includes title "how to" then ["educational"] else [])
   ++ (if includes title "review" || includes title "comparison" then ["review"] else [])
   ++ (if includes title "beginner" || includes title "basics" then ["beginner"] else [])
   ++ (if includes title "advanced" || includes title "expert" then ["advanced"] else [])
   ++ (if includes title "2024" || includes title "2025" then ["current"] else []))%list.

(** [analyzeVideoThemes]; [keywordLower] is computed and never read. *)
Definition analyzeVideoThemes (videoResults : list VideoItem) (keyword : string) : list string :=
  let keywordLower := toLowerCase keyword in
  dedup (flat_map (fun video => video_themes (toLowerCase (or_str (video_title video) "")))
           videoResults).

(** The [data] object of [getYouTubeKeywordData] ([platform] is the
    constant ['youtube']). *)
Record YouTubeData := mkYouTubeData {
  video_count : nat;
  videos : list VideoItem;
  engagement_metrics : VideoEngagement;
  content_themes : list string
}.

(** [getYouTubeKeywordData]: the [fetch] outcome is an input; the cost is
    [getResponseSummary(result).totalCost], that is [getTotalCost]. *)
Definition getYouTubeKeywordData (keyword : string)
    (response : Res (FetchResponse VideoEntry)) : Res (YouTubeData * Q) :=
  match response with
  | Throw m => Throw m
  | Ok resp =>
      if negb (ok resp) then Throw ("HTTP error! status: " ++ show_Z (http_status resp)) else
      match videoResultsOf (json resp) with
      | Throw m => Throw m
      | Ok videoResults =>
          Ok (mkYouTubeData (length videoResults) (firstn 10 videoResults)
                (analyzeVideoEngagement videoResults) (analyzeVideoThemes videoResults keyword),
              getTotalCost (json resp))
      end
  end.

End YouTube.

(* ------------------------------------------------------------------------- *)
(** * Keyword summary (services/researchService.ts) *)

Module Summary.
Import Metrics Adapters YouTube.

Record KeywordSummary := mkKeywordSummary {
  total_volume : Z;
  best_platform : string;
  overall_competition : string;
  recommended_strategy : string
}.

(** [generateKeywordSummary] on the fields it reads: [searchEngines.google]
    ([search_volume], [competition]), [searchEngines.bing.total_results] and
    [searchEngines.youtube.video_count]; [None] is an absent engine. *)
Definition generateKeywordSummary (google : option (option Z * option Q))
    (bing : option (option Z)) (youtube : option (option Z)) : KeywordSummary :=
  let '(totalVolume, bestPlatform, overall) :=
    match google with
    | Some (search_volume, competition) =>
        (0 + match search_volume with Some v => v | None => 0 end, "google",
         overallCompetition competition)
    | None => (0, "unknown", "unknown")
    end in
  let bestPlatform :=
    match bing with
    | Some total_results =>
        let bingResultCount := match total_results with Some n => n | None => 0 end in
        if Z.ltb totalVolume bingResultCount && Z.ltb 0 totalVolume then "multi-platform"
        else if Z.eqb totalVolume 0 && Z.ltb 0 bingResultCount then "bing"
        else bestPlatform
    | None => bestPlatform
    end in
  let bestPlatform :=
    match youtube with
    | Some video_count =>
        let videoCount := match video_count with Some n => n | None => 0 end in
        if Z.ltb 100 videoCount then
          (if String.eqb bestPlatform "unknown" then "youtube" else "multi-platform")
        else bestPlatform
    | None => bestPlatform
    end in
  let recommendedStrategy :=
    if String.eqb overall "high" then "target long-tail variations"
    else if String.eqb overall "low" && Z.ltb 1000 totalVolume then "opportunity for quick wins"
    else if Z.ltb totalVolume 100 then "consider broader keyword variants"
    else "focus on content quality" in
  let recommendedStrategy :=
    if String.eqb bestPlatform "multi-platform" then "diversify across multiple platforms"
    else recommendedStrategy in
  mkKeywordSummary totalVolume bestPlatform overall recommendedStrategy.

(** The [searchEngines] object of the single-source [getKeywordIntelligence]
    as [generateKeywordSummary] reads it: the Google entry spreads the
    adapter's [search_volume] and [competition], the Bing entry's
    [total_results] is the number of SERP results, the YouTube entry
    carries [video_count]. *)
Definition engine_google (engines : list (string * EngineEntry YouTubeData))
    : option (option Z * option Q) :=
  match find (fun e => String.eqb (fst e) "google") engines with
  | Some (_, GoogleEntry gd _ _ _) => Some (Some (g_search_volume gd), Some (g_competition gd))
  | _ => None
  end.

Definition engine_bing (engines : list (string * EngineEntry YouTubeData)) : option (option Z) :=
  match find (fun e => String.eqb (fst e) "bing") engines with
  | Some (_, BingEntry bd _ _ _) => Some (Some (Z.of_nat (length (b_results bd))))
  | _ => None
  end.

Definition engine_youtube (engines : list (string * EngineEntry YouTubeData)) : option (option Z) :=
  match find (fun e => String.eqb (fst e) "youtube") engines with
  | Some (_, YouTubeEntry yd) => Some (Some (Z.of_nat (video_count yd)))
  | _ => None
  end.

(** The [summary] field of the single-source [getKeywordIntelligence]. *)
Definition keywordIntelligenceSummary (keyword source : string) (up : Upstream YouTubeData)
    : Res KeywordSummary :=
  match getKeywordIntelligence keyword source up with
  | Throw m => Throw m
  | Ok r =>
      let engines := search_engines r in
      Ok (generateKeywordSummary (engine_google engines) (engine_bing engines)
            (engine_youtube engines))
  end.

End Summary.

(* ------------------------------------------------------------------------- *)
(** * Search-engine comparison (the [compareSearchEngines] variant of
      researchService and its [generateComparisonInsights]) *)

Module Comparison.
Import Metrics.

(** What [generateComparisonInsights] reads of [comparisons.google] and
    [comparisons.bing]: [search_volume], [competition], [serp_features]. *)
Record ComparisonData := mkComparisonData {
  c_search_volume : option Z;
  c_competition : option Q;
  c_serp_features : option (list string)
}.

Record ComparisonInsights := mkComparisonInsights {
  recommendations : list string;
  key_differences : list string
}.

(** [generateComparisonInsights]; [keyword] is not read. A volume counts
    when it is truthy (present and non-zero). *)
Definition generateComparisonInsights (googleData bingData : ComparisonData)
    (keyword : string) : ComparisonInsights :=
  let '(r1, k1) :=
    match c_search_volume googleData, c_search_volume bingData with
    | Some googleVolume, Some bingVolume =>
        if negb (Z.eqb googleVolume 0) && negb (Z.eqb bingVolume 0) then
          if Z.ltb (bingVolume * 2) googleVolume then
            (["Focus primary SEO efforts on Google"],
             ["Google has "
              ++ show_Z (js_round (inject_Z googleVolume / inject_Z bingVolume * 100)%Q - 100)
              ++ "% higher search volume"])
          else if Z.ltb googleVolume bingVolume then
            (["Consider Bing optimization - competitive advantage"],
             ["Bing shows higher or comparable search interest"])
          else ([], [])
        else ([], [])
    | _, _ => ([], [])
    end in
  let '(r2, k2) :=
    match c_competition googleData, c_competition bingData with
    | Some gc, Some bc =>
        if Qgt gc (bc + (3 # 10))%Q then
          (["Bing may offer easier ranking opportunities"],
           ["Significantly less competition on Bing"])
        else ([], [])
    | _, _ => ([], [])
    end in
  let googleFeatures := match c_serp_features googleData with Some f => f | None => [] end in
  let bingFeatures := match c_serp_features bingData with Some f => f | None => [] end in
  let k3 :=
    if Nat.ltb (length bingFeatures) (length googleFeatures)
    then ["Google shows more SERP features"] else [] in
  mkComparisonInsights (r1 ++ r2)%list (k1 ++ k2 ++ k3)%list.

(** [{ error: 'Data unavailable' }]: none of the fields read. *)
Definition unavailable : ComparisonData := mkComparisonData None None None.

Section Compare.
(** The adapters' data: Google's carries [search_volume], [competition]
    and [serp_features]; Bing's carries [serp_features], its
    [search_volume] is the constant 0 and it has no [competition]. *)
Context {G B : Type}.
Variable g_volume : G -> Z.
Variable g_comp : G -> Q.
Variable g_features : G -> list string.
Variable b_features : B -> list string.

Record ComparisonResult := mkComparisonResult {
  insights : ComparisonInsights;
  comparison_total_cost : Q
}.

(** [compareSearchEngines]: each adapter call in its own [try]/[catch]. *)
Definition compareSearchEngines (keyword : string)
    (googleCall : Res (G * Q)) (bingCall : Res (B * Q)) : ComparisonResult :=
  let '(google, cost1) :=
    match googleCall with
    | Ok (d, c) => (mkComparisonData (Some (g_volume d)) (Some (g_comp d)) (Some (g_features d)), c)
    | Throw _ => (unavailable, 0%Q)
    end in
  let '(bing, cost2) :=
    match bingCall with
    | Ok (d, c) => (mkComparisonData (Some 0) None (Some (b_features d)), c)
    | Throw _ => (unavailable, 0%Q)
    end in
  mkComparisonResult (generateComparisonInsights google bing keyword) (0 + cost1 + cost2)%Q.

End Compare.

End Comparison.

(* ========================================================================= *)
(** * Properties *)

Module RetryProps.
Import ErrorHandlers.

(** The message of the [TypeError] raised by [dataForSEOConfig.instance.retry]. *)
Definition instance_type_error : string :=
  "Cannot read properties of undefined (reading 'retry')".

(** A non-negative integer as a JS number. *)
Definition js_int (n : nat) : JsNumber := Num (inject_Z (Z.of_nat n)).

(** The trace of a run of [n+1] invocations starting at attempt [a]:
    invocations separated by the [baseDelay * 2^attempt] sleeps. *)
Fixpoint retry_trace (b : JsNumber) (a n : nat) : list Event :=
  match n with
  | O => [Invoke a]
  | S n' => Invoke a :: Sleep (num_mul_pow2 b a) :: retry_trace b (S a) n'
  end.

(** [n] iterations that each invoke the operation and then sleep. *)
Fixpoint retry_prefix (b : JsNumber) (a n : nat) : list Event :=
  match n with
  | O => []
  | S n' => Invoke a :: Sleep (num_mul_pow2 b a) :: retry_prefix b (S a) n'
  end.

(** C2 (code_bug): with a default parameter, [withRetry] evaluates
    [dataForSEOConfig.instance.retry.MAX_RETRIES] (or [.BASE_DELAY]), which
    throws a [TypeError] since the configuration has no [instance] member:
    the operation is never invoked, nothing is retried and no delay
    occurs. *)
Theorem withRetry_defaults_never_invoke_operation {T : Type} (fuel : nat)
    (op : nat -> Outcome T) (maxRetries baseDelay : option JsNumber) :
  withRetry fuel op None baseDelay = (ThrownTypeError instance_type_error, [])
  /\ withRetry fuel op maxRetries None = (ThrownTypeError instance_type_error, []).
Proof.
  split; [reflexivity|]. destruct maxRetries; reflexivity.
Qed.

(** C3 (code_bug): [withRetry] accepts [maxRetries]; called with 5 retries
    and a base delay of 1000 ms, an operation that keeps failing with HTTP
    429 sleeps 16000 ms before its last attempt, above the configured
    [MAX_DELAY] of 10000 ms, which [withRetry] never applies. *)
Theorem withRetry_delay_exceeds_max_delay (fuel : nat) :
  snd (withRetry fuel (fun _ => @Reject unit (ErrResponse 429 None None))
         (Some (Num 5)) (Some (Num 1000))) =
    [Invoke 0; Sleep (Num 1000); Invoke 1; Sleep (Num 2000); Invoke 2; Sleep (Num 4000);
     Invoke 3; Sleep (Num 8000); Invoke 4; Sleep (Num 16000); Invoke 5]
  /\ (MAX_DELAY (retry dataForSEOConfig) < 16000)%Q.
Proof. split; reflexivity. Qed.

(** C4 (code_bug): called with 3 retries and a base delay of 1000 ms, an
    operation failing with HTTP 429 and a reported cost of 1 on each of its
    4 attempts surfaces an error whose [cost] is 1, the last attempt's; the
    running [totalCost] (4) is dropped. *)
Theorem withRetry_error_cost_is_last_attempt_only (fuel : nat) :
  let op := fun _ : nat =>
    @Reject unit (ErrResponse 429 None (Some (mkResponseData None (Some 1%Q)))) in
  exists e, withRetry fuel op (Some (Num 3)) (Some (Num 1000)) =
              (Thrown e, [Invoke 0; Sleep (Num 1000); Invoke 1; Sleep (Num 2000); Invoke 2;
                          Sleep (Num 4000); Invoke 3])
            /\ cost e = Some 1%Q.
Proof. eexists. split; reflexivity. Qed.

End RetryProps.

Module ExtractProps.
Import ResponseHandler.

(** C8: [extractFirstTaskResults] throws when the envelope's [tasks] is
    empty, and throws a message containing the first task's
    [status_message] and [status_code] when that code is not 20000;
    [extractFirstResultItem] throws the same errors and, in addition, throws
    when the first task succeeded with an empty result list. *)
Theorem extract_first_task_errors {A : Type}
    (r1 : DataForSEOResponse A) (Hr1 : tasks r1 = Some [])
    (r2 : DataForSEOResponse A) (t2 : DataForSEOTask A) (rest2 : list (DataForSEOTask A))
    (c : Z) (m : string)
    (H2 : tasks r2 = Some (t2 :: rest2)) (Hc : task_status_code t2 = Some c)
    (Hne : c <> 20000) (Hm : task_status_message t2 = Some m)
    (r3 : DataForSEOResponse A) (t3 : DataForSEOTask A) (rest3 : list (DataForSEOTask A))
    (H3 : tasks r3 = Some (t3 :: rest3)) (Hok3 : task_status_code t3 = Some 20000)
    (Hres3 : task_result t3 = None \/ task_result t3 = Some []) :
  extractFirstTaskResults (Some r1) = Throw "Invalid DataForSEO response: no tasks found"
  /\ extractFirstResultItem (Some r1) = Throw "Invalid DataForSEO response: no tasks found"
  /\ extractFirstTaskResults (Some r2) =
       Throw ("DataForSEO task failed: " ++ m ++ " (code: " ++ show_Z c ++ ")")
  /\ extractFirstResultItem (Some r2) =
       Throw ("DataForSEO task failed: " ++ m ++ " (code: " ++ show_Z c ++ ")")
  /\ extractFirstTaskResults (Some r3) = Ok []
  /\ extractFirstResultItem (Some r3) = Throw "No results found in DataForSEO response".
Proof.
  unfold extractFirstResultItem, extractFirstTaskResults; simpl.
  rewrite Hr1, H2, Hc, H3, Hok3, Hm. simpl.
  apply Z.eqb_neq in Hne. rewrite Hne. simpl.
  destruct Hres3 as [E|E]; rewrite E; repeat split.
Qed.

Lemma extract_first_task_errors_witness :
  let r1 := @mkResponse nat (Some 20000) (Some "Ok.") None (Some []) in
  let t2 := @mkTask nat (Some 40000) (Some "Invalid Field") None None in
  let r2 := mkResponse (Some 20000) (Some "Ok.") None (Some [t2]) in
  let t3 := @mkTask nat (Some 20000) (Some "Ok.") None (Some []) in
  let r3 := mkResponse (Some 20000) (Some "Ok.") None (Some [t3]) in
  extractFirstTaskResults (Some r2) =
    Throw "DataForSEO task failed: Invalid Field (code: 40000)"
  /\ extractFirstResultItem (Some r3) = Throw "No results found in DataForSEO response"
  /\ extractFirstTaskResults (Some r1) = Throw "Invalid DataForSEO response: no tasks found".
Proof.
  intros r1 t2 r2 t3 r3.
  destruct (extract_first_task_errors r1 eq_refl r2 t2 [] 40000 "Invalid Field" eq_refl
              eq_refl ltac:(discriminate) eq_refl r3 t3 [] eq_refl eq_refl (or_intror eq_refl))
    as (E1 & _ & E2 & _ & _ & E3).
  rewrite E2, E3, E1. split; [reflexivity|split; reflexivity].
Defined.

End ExtractProps.

Module TrendProps.
Import Metrics.

(** C1 (counterexample): for the empty history, [calculateTrend] (the
    [trend] field of the Google adapter) is ['no data'], not
    ['insufficient_data']. *)
Lemma calculateTrend_empty_is_no_data :
  calculateTrend [] = "no data" /\ calculateTrend [] <> "insufficient_data".
Proof. split; [reflexivity | discriminate]. Qed.

(** C1 (amended): for fewer than 2 points, [calculateTrend] returns
    ['no data'] and [calculateAdvancedTrend] reports ['insufficient_data']
    for its monthly, quarterly and yearly trends and ['unknown'] for
    seasonality and volatility; none of them is a percentage. *)
Theorem trend_fields_for_short_history (ms : list MonthPoint) (Hlen : (length ms < 2)%nat) :
  calculateTrend ms = "no data"
  /\ monthly_trend (calculateAdvancedTrend ms) = "insufficient_data"
  /\ quarterly_trend (calculateAdvancedTrend ms) = "insufficient_data"
  /\ yearly_trend (calculateAdvancedTrend ms) = "insufficient_data"
  /\ seasonality (calculateAdvancedTrend ms) = "unknown"
  /\ volatility (calculateAdvancedTrend ms) = "unknown"
  /\ details (calculateAdvancedTrend ms) = None.
Proof.
  unfold calculateTrend, calculateAdvancedTrend.
  assert (E2 : Nat.ltb (length ms) 2 = true) by (apply Nat.ltb_lt; exact Hlen).
  assert (E3 : Nat.ltb (length ms) 3 = true) by (apply Nat.ltb_lt; lia).
  rewrite E2, E3. repeat split.
Qed.

Lemma trend_fields_for_short_history_witness :
  let ms := [mkMonthPoint (Some 2024) (Some 5) (Some 1200)] in
  (length ms < 2)%nat /\ calculateTrend ms = "no data"
  /\ monthly_trend (calculateAdvancedTrend ms) = "insufficient_data".
Proof.
  intros ms. assert (H : (length ms < 2)%nat) by (simpl; lia).
  destruct (trend_fields_for_short_history ms H) as (A & B & _).
  split; [exact H | split; assumption].
Defined.

End TrendProps.

Module CompetitionProps.
Import Metrics.

Lemma Qgt_true (a b : Q) : Qgt a b = true <-> (b < a)%Q.
Proof.
  unfold Qgt. rewrite negb_true_iff. split.
  - intros H. apply Qnot_le_lt. intros Hle. apply Qle_bool_iff in Hle. congruence.
  - intros H. destruct (Qle_bool a b) eqn:E; [|reflexivity].
    apply Qle_bool_iff in E. exfalso. apply (Qlt_not_le b a); assumption.
Qed.

Lemma Qgt_false (a b : Q) : Qgt a b = false <-> (a <= b)%Q.
Proof.
  unfold Qgt. rewrite negb_false_iff. apply Qle_bool_iff.
Qed.

(** C7: the competition level derived from a score [s] (in
    [getGoogleKeywordData] and in [generateKeywordSummary]) is high for
    [s > 0.7], medium for [0.4 < s <= 0.7] and low otherwise; 0.75, 0.45 and
    0.10 give high, medium and low, and the boundaries 0.7 and 0.4 give the
    lower tiers medium and low. *)
Theorem competition_level_thresholds (s : Q) :
  ((7 # 10 < s)%Q ->
     competitionLevel (Some s) = "high" /\ overallCompetition (Some s) = "high")
  /\ ((4 # 10 < s)%Q -> (s <= 7 # 10)%Q ->
     competitionLevel (Some s) = "medium" /\ overallCompetition (Some s) = "medium")
  /\ ((s <= 4 # 10)%Q ->
     competitionLevel (Some s) = "low" /\ overallCompetition (Some s) = "low")
  /\ competitionLevel (Some (75 # 100)) = "high"
  /\ competitionLevel (Some (45 # 100)) = "medium"
  /\ competitionLevel (Some (10 # 100)) = "low"
  /\ competitionLevel (Some (7 # 10)) = "medium"
  /\ competitionLevel (Some (4 # 10)) = "low".
Proof.
  unfold competitionLevel, overallCompetition, or0.
  split; [|split; [|split]].
  - intros H. apply Qgt_true in H. rewrite H. split; reflexivity.
  - intros H1 H2. apply Qgt_true in H1. apply Qgt_false in H2. rewrite H1, H2.
    split; reflexivity.
  - intros H. assert (H' : (s <= 7 # 10)%Q) by (eapply Qle_trans; [exact H|]; discriminate).
    apply Qgt_false in H, H'. rewrite H, H'. split; reflexivity.
  - repeat split; reflexivity.
Qed.

Lemma competition_level_thresholds_witness :
  (7 # 10 < 3 # 4)%Q /\ competitionLevel (Some (3 # 4)) = "high".
Proof.
  assert (H : (7 # 10 < 3 # 4)%Q) by reflexivity.
  split; [exact H|]. apply (proj1 (competition_level_thresholds (3 # 4)) H).
Defined.

End CompetitionProps.

Module DedupProps.

Definition dedup_step (acc : list string) (x : string) : list string :=
  if existsb (String.eqb x) acc then acc else (acc ++ [x])%list.

Lemma dedup_as_fold (xs : list string) : dedup xs = fold_left dedup_step xs [].
Proof. reflexivity. Qed.

Lemma existsb_eqb_In (x : string) (acc : list string) :
  existsb (String.eqb x) acc = true <-> In x acc.
Proof.
  rewrite existsb_exists. split.
  - intros (y & Hy & E). apply String.eqb_eq in E. subst. exact Hy.
  - intros H. exists x. split; [exact H | apply String.eqb_refl].
Qed.

Lemma dedup_fold_In (xs acc : list string) (x : string) :
  In x (fold_left dedup_step xs acc) <-> In x acc \/ In x xs.
Proof.
  revert acc. induction xs as [|y xs IH]; intros acc; simpl.
  - tauto.
  - rewrite IH. unfold dedup_step.
    destruct (existsb (String.eqb y) acc) eqn:E.
    + apply existsb_eqb_In in E. split; [tauto|].
      intros [H|[H|H]]; [tauto| subst; tauto | tauto].
    + rewrite in_app_iff. simpl. tauto.
Qed.

Lemma dedup_fold_NoDup (xs acc : list string) :
  NoDup acc -> NoDup (fold_left dedup_step xs acc).
Proof.
  revert acc. induction xs as [|y xs IH]; intros acc Hacc; simpl; [exact Hacc|].
  apply IH. unfold dedup_step.
  destruct (existsb (String.eqb y) acc) eqn:E; [exact Hacc|].
  apply NoDup_app; [exact Hacc | constructor; [intros []|constructor] |].
  intros z Hz [Ez|[]]. rewrite <- Ez in Hz.
  apply existsb_eqb_In in Hz. congruence.
Qed.

Lemma dedup_NoDup (xs : list string) : NoDup (dedup xs).
Proof. rewrite dedup_as_fold. apply dedup_fold_NoDup. constructor. Qed.

Lemma dedup_In (xs : list string) (x : string) : In x (dedup xs) <-> In x xs.
Proof. rewrite dedup_as_fold, dedup_fold_In. simpl. tauto. Qed.

Lemma fold_dedup_present (ys acc : list string) :
  (forall y, In y ys -> In y acc) -> fold_left dedup_step ys acc = acc.
Proof.
  revert acc. induction ys as [|y ys IH]; intros acc Hs; simpl; [reflexivity|].
  unfold dedup_step at 2.
  assert (E : existsb (String.eqb y) acc = true)
    by (apply existsb_eqb_In, Hs; left; reflexivity).
  rewrite E. apply IH. intros z Hz. apply Hs. right. exact Hz.
Qed.

(** Appending values already present leaves the deduplicated list unchanged. *)
Lemma dedup_app_present (xs ys : list string) :
  (forall y, In y ys -> In y xs) -> dedup (xs ++ ys) = dedup xs.
Proof.
  intros Hsub. rewrite !dedup_as_fold, fold_left_app.
  apply fold_dedup_present. intros y Hy.
  apply dedup_fold_In. right. apply Hsub. exact Hy.
Qed.

End DedupProps.

Module SerpProps.
Import Metrics DedupProps.

(** Sum of the per-feature CTR penalties of a feature list. *)
Definition total_penalty (fs : list string) : Z :=
  fold_right (fun f acc => ctr_penalty f + acc) 0 fs.

Lemma ctr_fold (fs : list string) (a : Z) :
  fold_left (fun acc f => acc - ctr_penalty f) fs a = a - total_penalty fs.
Proof.
  revert a. induction fs as [|f fs IH]; intros a; simpl; [lia|].
  rewrite IH. lia.
Qed.

Lemma pushed_featured_snippet (r : SerpItem) :
  In "featured_snippet" (pushed_features r) <-> type_is r "featured_snippet" = true.
Proof.
  unfold pushed_features. rewrite in_map_iff. split.
  - intros ([k v] & Ev & Hin). simpl in Ev. subst v.
    apply filter_In in Hin as [Hin Ht]. simpl in Ht.
    assert (Ek : k = "featured_snippet") by (simpl in Hin; intuition congruence).
    subst k. exact Ht.
  - intros Ht. exists ("featured_snippet", "featured_snippet"). split; [reflexivity|].
    apply filter_In. split; [simpl; tauto | exact Ht].
Qed.

Definition featured_snippet_item : SerpItem :=
  mkSerpItem (Some "featured_snippet") None None None None None None None None.

(** C9: the feature list of a SERP result list has no duplicates and
    contains exactly the features some item's [type] maps to; an item
    repeated at the end changes nothing; ['featured_snippet'] occurs once
    when some item has that type (and not at all otherwise); the CTR impact
    is the sum of each listed feature's penalty, applied once, capped below
    at -50, so two featured-snippet items give -8. *)
Theorem serp_features_deduplicated_ctr_once (rs : list SerpItem) :
  let fs := analyzeSerpFeatures rs in
  NoDup fs
  /\ (forall f, In f fs <-> exists r, In r rs /\ In f (pushed_features r))
  /\ (forall r, In r rs -> analyzeSerpFeatures (rs ++ [r]) = fs)
  /\ count_occ string_dec fs "featured_snippet"
       = (if existsb (fun r => type_is r "featured_snippet") rs then 1 else 0)%nat
  /\ estimated_ctr_impact (analyzeSerpStrategy fs) = Z.max (- total_penalty fs) (-50)
  /\ -50 <= estimated_ctr_impact (analyzeSerpStrategy fs)
  /\ estimated_ctr_impact
       (analyzeSerpStrategy (analyzeSerpFeatures [featured_snippet_item; featured_snippet_item]))
     = -8.
Proof.
  intros fs.
  assert (Hmem : forall f, In f fs <-> exists r, In r rs /\ In f (pushed_features r)).
  { intros f. unfold fs, analyzeSerpFeatures. rewrite dedup_In, in_flat_map. reflexivity. }
  assert (Hnd : NoDup fs) by apply dedup_NoDup.
  assert (Hctr : estimated_ctr_impact (analyzeSerpStrategy fs) = Z.max (- total_penalty fs) (-50)).
  { unfold analyzeSerpStrategy. simpl. rewrite ctr_fold. f_equal. }
  split; [exact Hnd|]. split; [exact Hmem|]. split.
  - intros r Hr. unfold fs, analyzeSerpFeatures. rewrite flat_map_app. simpl.
    rewrite app_nil_r. apply dedup_app_present. intros y Hy.
    apply in_flat_map. exists r. split; assumption.
  - split; [|split; [exact Hctr|split; [rewrite Hctr; lia|reflexivity]]].
    destruct (existsb (fun r => type_is r "featured_snippet") rs) eqn:E.
    + pose proof (proj1 (NoDup_count_occ' string_dec fs) Hnd) as Hc. apply Hc.
      apply Hmem. apply existsb_exists in E as (r & Hr & Ht).
      exists r. split; [exact Hr|]. apply pushed_featured_snippet. exact Ht.
    + apply count_occ_not_In. intros Hin. apply Hmem in Hin as (r & Hr & Hp).
      apply pushed_featured_snippet in Hp.
      assert (existsb (fun r => type_is r "featured_snippet") rs = true)
        by (apply existsb_exists; exists r; split; assumption).
      congruence.
Qed.

End SerpProps.

Module PaidProps.
Import Metrics.

Lemma ge5_if (b : bool) (q k : Q) : (5 <= q)%Q -> (0 <= k)%Q -> (5 <= if b then q + k else q)%Q.
Proof. intros Hq Hk. destruct b; lra. Qed.

Lemma ge5_plus (q k : Q) : (5 <= q)%Q -> (0 <= k)%Q -> (5 <= q + k)%Q.
Proof. intros; lra. Qed.

Ltac ge5_peel :=
  repeat first
    [ apply ge5_if; [| lra]
    | apply ge5_plus; [| lra]
    | lra
    | match goal with |- (5 <= match ?o with _ => _ end)%Q => destruct o end ].

Lemma calculateAdQuality_bounds (ad : SerpItem) :
  (5 <= calculateAdQuality ad <= 10)%Q.
Proof.
  unfold calculateAdQuality. cbv zeta. split.
  - apply Q.min_glb; [ge5_peel | lra].
  - apply Q.le_min_r.
Qed.

Lemma fold_Qplus_bounds (l : list Q) (a : Q) :
  (forall x, In x l -> 5 <= x <= 10)%Q ->
  (a + 5 * inject_Z (Z.of_nat (length l)) <= fold_left Qplus l a
     <= a + 10 * inject_Z (Z.of_nat (length l)))%Q.
Proof.
  revert a. induction l as [|x l IH]; intros a Hb; cbn [fold_left length].
  - unfold inject_Z. simpl. split; lra.
  - assert (Hx : (5 <= x <= 10)%Q) by (apply Hb; left; reflexivity).
    destruct (IH (a + x)%Q) as [L U]; [intros y Hy; apply Hb; right; exact Hy|].
    rewrite Nat2Z.inj_succ, <- Z.add_1_r, inject_Z_plus. unfold inject_Z at 2 4. split; lra.
Qed.

Lemma js_round_bounds (x : Q) (lo hi : Z) :
  (inject_Z lo <= x <= inject_Z hi)%Q -> lo <= js_round x <= hi.
Proof.
  intros [L U]. unfold js_round. split.
  - rewrite <- (Qfloor_Z lo). apply Qfloor_resp_le. lra.
  - pose proof (Qfloor_le (x + (1 # 2))) as Hf.
    destruct (Z.le_gt_cases (Qfloor (x + (1 # 2))) hi) as [H|H]; [exact H|].
    exfalso. assert (H1 : (hi + 1 <= Qfloor (x + (1 # 2)))%Z) by lia.
    rewrite Zle_Qle, inject_Z_plus in H1. unfold inject_Z in H1 at 2. lra.
Qed.

(** C10: every per-ad quality score lies in [5, 10], and when at least one
    item is a paid ad the reported [average_ad_quality] is present and lies
    in [5, 10]. *)
Theorem ad_quality_at_least_five (ad : SerpItem) (serpResults : list SerpItem)
    (platform : string) (Hpaid : exists r, In r serpResults /\ type_is r "paid" = true) :
  (5 <= calculateAdQuality ad <= 10)%Q
  /\ exists q, average_ad_quality (analyzePaidCompetition serpResults platform) = Some q
               /\ (5 <= q <= 10)%Q.
Proof.
  split; [apply calculateAdQuality_bounds|].
  unfold analyzePaidCompetition.
  remember (filter (fun r => type_is r "paid") serpResults) as paid eqn:Ep.
  destruct paid as [|p ps] eqn:Epaid.
  - exfalso. destruct Hpaid as (r & Hr & Ht).
    assert (Hin : In r (filter (fun r => type_is r "paid") serpResults))
      by (apply filter_In; split; assumption).
    rewrite <- Ep in Hin. exact Hin.
  - rewrite <- Epaid. simpl. eexists. split; [reflexivity|].
    set (scores := map calculateAdQuality paid).
    assert (Hs : forall x, In x scores -> (5 <= x <= 10)%Q).
    { intros x Hx. apply in_map_iff in Hx as (a & <- & _). apply calculateAdQuality_bounds. }
    pose proof (fold_Qplus_bounds scores 0 Hs) as [L U].
    assert (Hn : (0 < inject_Z (Z.of_nat (length scores)))%Q).
    { unfold scores. rewrite length_map, Epaid. simpl length.
      unfold Qlt. simpl. lia. }
    set (n := inject_Z (Z.of_nat (length scores))) in *.
    set (s := fold_left Qplus scores 0%Q) in *.
    assert (Ha : (5 <= s / n <= 10)%Q).
    { split.
      - apply Qle_shift_div_l; [exact Hn | lra].
      - apply Qle_shift_div_r; [exact Hn | lra]. }
    assert (Hr : 50 <= js_round (s / n * 10) <= 100).
    { apply js_round_bounds. unfold inject_Z. split; lra. }
    destruct Hr as [R1 R2].
    rewrite Zle_Qle in R1, R2. unfold inject_Z in R1 at 1. unfold inject_Z in R2 at 2.
    set (r := inject_Z (js_round (s / n * 10))) in *.
    split.
    + apply Qle_shift_div_l; [reflexivity | lra].
    + apply Qle_shift_div_r; [reflexivity | lra].
Qed.

Lemma ad_quality_at_least_five_witness :
  let ad := mkSerpItem (Some "paid") (Some "example.com") (Some "Buy shoes online - Example Store")
              None None None None None (Some "Example") in
  exists q, average_ad_quality (analyzePaidCompetition [ad] "google") = Some q
            /\ (5 <= q <= 10)%Q.
Proof.
  intros ad.
  apply (proj2 (ad_quality_at_least_five ad [ad] "google"
                  (ex_intro _ ad (conj (or_introl eq_refl) eq_refl)))).
Defined.

End PaidProps.

Module AdapterProps.
Import ResponseHandler Metrics Adapters.






End AdapterProps.

Module MultiSourceProps.
Import MultiSource.





End MultiSourceProps.

(* ------------------------------------------------------------------------- *)
(** * Further properties of the modelled code *)

Module ErrorClassProps.
Import ErrorHandlers.

(** X1: an HTTP error response keeps its status as [statusCode] and
    [data.cost || 0] as the cost; it is retryable exactly for the statuses
    429, 500, 502, 503 and 504; a status other than 401, 402, 429 and the
    server errors keeps the message [statusText || data.status_message ||
    'Unknown DataForSEO API error']. *)
Theorem handleApiError_http_response (status : Z) (statusText : option string)
    (data : option ResponseData) :
  let e := handleApiError (ErrResponse status statusText data) in
  statusCode e = status
  /\ cost e = Some (or0 (match data with Some d => data_cost d | None => None end))
  /\ (retryable e = true <-> In status [429; 500; 502; 503; 504])
  /\ (~ In status [401; 402; 429; 500; 502; 503; 504] ->
      message e = or_str statusText
                    (or_str (match data with Some d => data_status_message d | None => None end)
                       "Unknown DataForSEO API error")).
Proof.
  cbn zeta. unfold handleApiError.
  destruct (Z.eqb_spec status 401) as [->|H1]; [cbn; intuition (try discriminate; try lia)|].
  destruct (Z.eqb_spec status 402) as [->|H2]; [cbn; intuition (try discriminate; try lia)|].
  destruct (Z.eqb_spec status 429) as [->|H3]; [cbn; intuition (try discriminate; try lia)|].
  destruct (existsb (Z.eqb status) [500; 502; 503; 504]) eqn:Hs.
  - apply existsb_exists in Hs as (x & Hx & Heq). apply Z.eqb_eq in Heq. subst x.
    cbn. split; [reflexivity|]. split; [reflexivity|]. split.
    + split; [intros _; right; exact Hx | reflexivity].
    + intros Hn. exfalso. apply Hn. right. right. right. exact Hx.
  - cbn. split; [reflexivity|]. split; [reflexivity|]. split.
    + split; [discriminate|]. intros Hin.
      destruct Hin as [H|Hin]; [congruence|].
      assert (existsb (Z.eqb status) [500; 502; 503; 504] = true) as Ht
        by (apply existsb_exists; exists status; split; [exact Hin | apply Z.eqb_refl]).
      congruence.
    + intros _. reflexivity.
Qed.

(** X2: an error without an HTTP response is classified with status code 500
    and cost 0; a transport error is retryable exactly when its code is
    ECONNREFUSED, ENOTFOUND, ETIMEDOUT or ECONNABORTED, and an error with
    neither a response nor a code is never retryable. *)
Theorem handleApiError_transport (code : string) :
  let e := handleApiError (ErrCode code) in
  statusCode e = 500 /\ cost e = Some 0%Q
  /\ (retryable e = true <-> In code ["ECONNREFUSED"; "ENOTFOUND"; "ETIMEDOUT"; "ECONNABORTED"])
  /\ statusCode (handleApiError ErrPlain) = 500
  /\ retryable (handleApiError ErrPlain) = false.
Proof.
  cbn zeta. unfold handleApiError.
  destruct (String.eqb_spec code "") as [->|H0].
  - cbn. intuition (try discriminate).
  - destruct (existsb (String.eqb code) ["ECONNREFUSED"; "ENOTFOUND"; "ETIMEDOUT"]) eqn:Hs.
    + apply existsb_exists in Hs as (x & Hx & Heq). apply String.eqb_eq in Heq. subst x.
      cbn. repeat split; try reflexivity. intros _.
      destruct Hx as [H|[H|[H|[]]]]; rewrite <- H; simpl; auto.
    + destruct (String.eqb_spec code "ECONNABORTED") as [->|H4].
      * cbn. repeat split; try reflexivity. intros _. simpl; auto.
      * cbn. repeat split; try reflexivity; try discriminate.
        intros Hin. exfalso.
        destruct Hin as [H|[H|[H|[H|[]]]]]; subst code; try congruence; discriminate.
Qed.

End ErrorClassProps.

Module RetryCoverage.
Import ErrorHandlers ResponseHandler ResponseAnalysis ApiCall RetryProps.

Lemma nat_le_js_int (a n : nat) : nat_le_num a (js_int n) = Nat.leb a n.
Proof.
  unfold nat_le_num, js_int, Qle_bool, inject_Z. simpl. rewrite !Z.mul_1_r.
  destruct (Nat.leb_spec a n); [apply Z.leb_le | apply Z.leb_gt]; lia.
Qed.

Lemma nat_eq_js_int (a n : nat) : nat_eq_num a (js_int n) = Nat.eqb a n.
Proof.
  unfold nat_eq_num, js_int, Qeq_bool, inject_Z. simpl. rewrite !Z.mul_1_r.
  destruct (Nat.eqb_spec a n); [apply Z.eqb_eq | apply Z.eqb_neq]; lia.
Qed.

Lemma loop_bound_js_int (n fuel : nat) : loop_bound (js_int n) fuel = S n.
Proof.
  unfold loop_bound, js_int. rewrite Qfloor_Z.
  replace (Z.of_nat n + 1) with (Z.of_nat (S n)) by lia. apply Nat2Z.id.
Qed.

(** One iteration of the loop. *)
Lemma retry_loop_step {T} (op : nat -> Outcome T) (m b : JsNumber) fuel attempt tc le :
  retry_loop op m b (S fuel) attempt tc le
  = if negb (nat_le_num attempt m) then (ThrownLast le, [])
    else match op attempt with
         | Resolve v => (Returned v, [Invoke attempt])
         | Reject error =>
             let e := handleApiError error in
             if negb (retryable e) || nat_eq_num attempt m then (Thrown e, [Invoke attempt])
             else let '(r, evs) := retry_loop op m b fuel (S attempt) (tc + or0 (cost e))%Q (Some e) in
                  (r, Invoke attempt :: Sleep (num_mul_pow2 b attempt) :: evs)
         end.
Proof. reflexivity. Qed.

Lemma retry_loop_spec {T} (op : nat -> Outcome T) (n : nat) (b : JsNumber) :
  forall fuel attempt tc le,
    (attempt + fuel = S n)%nat -> (1 <= fuel)%nat ->
    exists k, (attempt <= k <= n)%nat
      /\ snd (retry_loop op (js_int n) b fuel attempt tc le) = retry_trace b attempt (k - attempt)
      /\ (forall i, (attempt <= i < k)%nat ->
            exists err, op i = Reject err /\ retryable (handleApiError err) = true)
      /\ ((exists v, op k = Resolve v
                     /\ fst (retry_loop op (js_int n) b fuel attempt tc le) = Returned v)
          \/ (exists err, op k = Reject err
                /\ fst (retry_loop op (js_int n) b fuel attempt tc le) = Thrown (handleApiError err)
                /\ (retryable (handleApiError err) = false \/ k = n))).
Proof.
  induction fuel as [|fuel IH]; intros attempt tc le Hinv Hf; [lia|].
  rewrite retry_loop_step, nat_le_js_int, nat_eq_js_int.
  replace (Nat.leb attempt n) with true by (symmetry; apply Nat.leb_le; lia).
  cbn [negb]. destruct (op attempt) as [v|err] eqn:Eop.
  - exists attempt. split; [lia|]. rewrite Nat.sub_diag. split; [reflexivity|].
    split; [intros i Hi; lia|]. left. exists v. split; [exact Eop | reflexivity].
  - destruct (negb (retryable (handleApiError err)) || Nat.eqb attempt n) eqn:Hstop.
    + exists attempt. split; [lia|]. rewrite Nat.sub_diag. split; [reflexivity|].
      split; [intros i Hi; lia|]. right. exists err. split; [exact Eop|]. split; [reflexivity|].
      apply orb_true_iff in Hstop as [H|H].
      * left. apply negb_true_iff in H. exact H.
      * right. apply Nat.eqb_eq in H. exact H.
    + apply orb_false_iff in Hstop as [Hr Hneq].
      apply negb_false_iff in Hr. apply Nat.eqb_neq in Hneq.
      destruct (IH (S attempt) (tc + or0 (cost (handleApiError err)))%Q
                  (Some (handleApiError err))) as (k & Hk & Htr & Hpre & Hend); [lia|lia|].
      destruct (retry_loop op (js_int n) b fuel (S attempt) _ _) as [r evs] eqn:Hrl.
      simpl in Htr, Hend |- *. exists k. split; [lia|]. split.
      * replace (k - attempt)%nat with (S (k - S attempt)) by lia. simpl. rewrite Htr. reflexivity.
      * split; [|exact Hend].
        intros i Hi. destruct (Nat.eq_dec i attempt) as [->|Hne].
        -- exists err. split; [exact Eop | exact Hr].
        -- apply Hpre. lia.
Qed.

Lemma withRetry_spec {T} (fuel : nat) (op : nat -> Outcome T) (n : nat) (b : JsNumber) :
  exists k, (k <= n)%nat
    /\ snd (withRetry fuel op (Some (js_int n)) (Some b)) = retry_trace b 0 k
    /\ (forall i, (i < k)%nat -> exists err, op i = Reject err /\ retryable (handleApiError err) = true)
    /\ ((exists v, op k = Resolve v /\ fst (withRetry fuel op (Some (js_int n)) (Some b)) = Returned v)
        \/ (exists err, op k = Reject err
              /\ fst (withRetry fuel op (Some (js_int n)) (Some b)) = Thrown (handleApiError err)
              /\ (retryable (handleApiError err) = false \/ k = n))).
Proof.
  unfold withRetry. cbn [param_or_default]. rewrite loop_bound_js_int.
  destruct (retry_loop_spec op n b (S n) 0 0%Q None) as (k & Hk & Htr & Hpre & Hend); [lia|lia|].
  exists k. rewrite Nat.sub_0_r in Htr. split; [lia|]. split; [exact Htr|]. split; [|exact Hend].
  intros i Hi. apply Hpre. lia.
Qed.

(** X3: called with a non-negative integer [maxRetries = n] and any
    [baseDelay], [withRetry] invokes the operation at attempts [0..k] for
    some [k <= n], sleeping [baseDelay * 2^i] after the failed attempt [i];
    every attempt before [k] failed with a retryable error; it returns the
    value of attempt [k] if that one resolved, and otherwise throws the
    classified error of attempt [k], which is non-retryable unless [k = n].
    For such a [maxRetries] it never reaches the final [throw lastError!]
    and always terminates. *)
Theorem withRetry_attempts_and_outcome {T} (fuel : nat) (op : nat -> Outcome T) (n : nat)
    (baseDelay : JsNumber) :
  exists k, (k <= n)%nat
    /\ snd (withRetry fuel op (Some (js_int n)) (Some baseDelay)) = retry_trace baseDelay 0 k
    /\ (forall i, (i < k)%nat ->
          exists err, op i = Reject err /\ isRetryableError (ErrDataForSEO (handleApiError err)) = true)
    /\ ((exists v, op k = Resolve v
                   /\ fst (withRetry fuel op (Some (js_int n)) (Some baseDelay)) = Returned v)
        \/ (exists err, op k = Reject err
              /\ fst (withRetry fuel op (Some (js_int n)) (Some baseDelay)) = Thrown (handleApiError err)
              /\ (isRetryableError (ErrDataForSEO (handleApiError err)) = false \/ k = n)))
    /\ (forall e, fst (withRetry fuel op (Some (js_int n)) (Some baseDelay)) <> ThrownLast e)
    /\ fst (withRetry fuel op (Some (js_int n)) (Some baseDelay)) <> Pending.
Proof.
  destruct (withRetry_spec fuel op n baseDelay) as (k & Hk & Htr & Hpre & Hend).
  exists k. split; [exact Hk|]. split; [exact Htr|]. split; [exact Hpre|]. split; [exact Hend|].
  split; [intros e He|intros He];
    destruct Hend as [(v & _ & Hv)|(err & _ & Hv & _)]; congruence.
Qed.

(** The error an outcome carries, classified. *)
Definition error_of {T} (o : Outcome T) : option DataForSEOError :=
  match o with Reject e => Some (handleApiError e) | Resolve _ => None end.

(** A run over attempts [a .. a+f] that all fail with a retryable error
    and stay within the loop condition without reaching [maxRetries]. *)
Lemma retry_loop_all_retryable {T} (op : nat -> Outcome T) (m b : JsNumber)
    (Hall : forall i, exists err, op i = Reject err /\ retryable (handleApiError err) = true) :
  forall f a tc le,
    (forall i, (a <= i <= a + f)%nat -> nat_le_num i m = true /\ nat_eq_num i m = false) ->
    retry_loop op m b (S f) a tc le
    = (if nat_le_num (S (a + f)) m then Pending else ThrownLast (error_of (op (a + f)%nat)),
       retry_prefix b a (S f)).
Proof.
  induction f as [|f IH]; intros a tc le H.
  - destruct (Hall a) as (err & Eop & Hr). destruct (H a) as [Hle Heq]; [lia|].
    rewrite retry_loop_step, Hle, Eop. cbn [negb]. rewrite Hr, Heq. cbn [negb orb].
    rewrite Nat.add_0_r, Eop. cbn [retry_loop retry_prefix error_of].
    destruct (nat_le_num (S a) m); reflexivity.
  - destruct (Hall a) as (err & Eop & Hr). destruct (H a) as [Hle Heq]; [lia|].
    rewrite retry_loop_step, Hle, Eop. cbn [negb]. rewrite Hr, Heq. cbn [negb orb].
    rewrite (IH (S a)) by (intros i Hi; apply H; lia).
    replace (S a + f)%nat with (a + S f)%nat by lia. reflexivity.
Qed.

(** X25: [withRetry] does reach its final [throw lastError!] for a
    [maxRetries] that is not a non-negative integer. For [NaN], [-Infinity]
    or a negative number the loop body never runs: the operation is not
    invoked and [undefined] is thrown. For a non-integer [q >= 0] and an
    operation that keeps failing with retryable errors, the operation is
    invoked [floor(q) + 1] times, each attempt (the last one included) is
    followed by a sleep, and the last attempt's error is thrown. For
    [Infinity] such an operation is retried forever: after any number of
    iterations the loop is still running. *)
Theorem withRetry_falls_through_to_last_error {T} (fuel : nat) (op : nat -> Outcome T)
    (b : JsNumber) :
  (forall m, (m = NaN \/ m = NegInfinity \/ exists q, m = Num q /\ (q < 0)%Q) ->
     withRetry fuel op (Some m) (Some b) = (ThrownLast None, []))
  /\ ((forall i, exists err, op i = Reject err /\ retryable (handleApiError err) = true) ->
      (forall q, (0 <= q)%Q -> ~ (inject_Z (Qfloor q) == q)%Q ->
         exists err, op (Z.to_nat (Qfloor q)) = Reject err
           /\ withRetry fuel op (Some (Num q)) (Some b)
              = (ThrownLast (Some (handleApiError err)),
                 retry_prefix b 0 (S (Z.to_nat (Qfloor q)))))
      /\ withRetry fuel op (Some Infinity) (Some b) = (Pending, retry_prefix b 0 fuel)).
Proof.
  split.
  - intros m Hm.
    assert (Hle : nat_le_num 0 m = false).
    { destruct Hm as [->|[->|(q & -> & Hq)]]; [reflexivity|reflexivity|].
      unfold nat_le_num. destruct (Qle_bool (inject_Z (Z.of_nat 0)) q) eqn:E; [|reflexivity].
      apply Qle_bool_iff in E. exfalso. exact (Qlt_not_le _ _ Hq E). }
    unfold withRetry. cbn [param_or_default].
    destruct (loop_bound m fuel); cbn [retry_loop]; rewrite Hle; reflexivity.
  - intros Hall. split.
    + intros q Hq0 Hnint.
      assert (Hf0 : (0 <= Qfloor q)%Z) by (apply (Qfloor_resp_le 0 q) in Hq0; exact Hq0).
      set (N := Z.to_nat (Qfloor q)).
      assert (HN : Z.of_nat N = Qfloor q) by (unfold N; apply Z2Nat.id; exact Hf0).
      assert (Hb : loop_bound (Num q) fuel = S N).
      { unfold loop_bound. rewrite <- HN.
        replace (Z.of_nat N + 1) with (Z.of_nat (S N)) by lia. apply Nat2Z.id. }
      destruct (Hall N) as (err & Eop & _). exists err. split; [exact Eop|].
      unfold withRetry. cbn [param_or_default]. rewrite Hb.
      rewrite (retry_loop_all_retryable op (Num q) b Hall N 0 0%Q None).
      * cbn [Nat.add]. rewrite Eop. cbn [error_of].
        replace (nat_le_num (S N) (Num q)) with false; [reflexivity|].
        symmetry. unfold nat_le_num. destruct (Qle_bool _ q) eqn:E; [|reflexivity].
        apply Qle_bool_iff in E. exfalso. apply (Qlt_not_le _ _ (Qlt_floor q)).
        replace (Qfloor q + 1)%Z with (Z.of_nat (S N)) by lia. exact E.
      * intros i Hi. unfold nat_le_num, nat_eq_num. split.
        -- apply Qle_bool_iff. apply Qle_trans with (inject_Z (Qfloor q)); [|apply Qfloor_le].
           rewrite <- Zle_Qle. lia.
        -- destruct (Qeq_bool _ q) eqn:E; [|reflexivity].
           apply Qeq_bool_iff in E. exfalso. apply Hnint.
           assert (Hfq : Qfloor q = Z.of_nat i)
             by (rewrite <- (Qfloor_comp _ _ E); apply Qfloor_Z).
           rewrite Hfq. exact E.
    + unfold withRetry. cbn [param_or_default loop_bound].
      destruct fuel as [|f]; [reflexivity|].
      rewrite (retry_loop_all_retryable op Infinity b Hall f 0 0%Q None); [reflexivity|].
      intros i _. split; reflexivity.
Qed.

Definition always_rate_limited : nat -> Outcome unit :=
  fun _ => Reject (ErrResponse 429 None None).

Lemma withRetry_falls_through_to_last_error_witness :
  exists err, always_rate_limited (Z.to_nat (Qfloor (1 # 2))) = Reject err
    /\ withRetry 0 always_rate_limited (Some (Num (1 # 2))) (Some (Num 1000))
       = (ThrownLast (Some (handleApiError err)),
          retry_prefix (Num 1000) 0 (S (Z.to_nat (Qfloor (1 # 2))))).
Proof.
  destruct (withRetry_falls_through_to_last_error 0 always_rate_limited (Num 1000)) as [_ H2].
  apply (proj1 (H2 (fun i => ex_intro _ (ErrResponse 429 None None) (conj eq_refl eq_refl)))).
  - vm_compute. discriminate.
  - vm_compute. discriminate.
Defined.

(** X4: [executeApiCall] calls [withRetry] without [maxRetries] and
    [baseDelay]; evaluating their defaults throws a [TypeError], so every
    call of [executeApiCall] rejects with it and its operation is never
    invoked, whatever the operation would return. *)
Theorem executeApiCall_never_invokes_operation {A} (fuel : nat)
    (operation : nat -> Outcome (option (DataForSEOResponse A))) :
  executeApiCall fuel operation = (ThrownTypeError instance_type_error, []).
Proof. reflexivity. Qed.

Lemma validateResponse_ok {A} (response : option (DataForSEOResponse A)) :
  ApiCall.validateResponse response = None ->
  exists env task rest, response = Some env /\ status_code env = Some 20000
    /\ tasks env = Some (task :: rest) /\ task_status_code task = Some 20000.
Proof.
  unfold ApiCall.validateResponse. destruct response as [env|]; [|discriminate].
  destruct (is_20000 (status_code env)) eqn:E1; simpl; [|discriminate].
  destruct (tasks env) as [[|task rest]|] eqn:Et; try discriminate.
  destruct (is_20000 (task_status_code task)) eqn:E2; simpl; [|discriminate].
  intros _. exists env, task, rest.
  unfold is_20000 in E1, E2.
  destruct (status_code env) as [c|]; [|discriminate]. apply Z.eqb_eq in E1. subst.
  destruct (task_status_code task) as [c|]; [|discriminate]. apply Z.eqb_eq in E2. subst.
  repeat split; auto.
Qed.

Lemma validateResponse_error_fields {A} (response : option (DataForSEOResponse A)) e :
  ApiCall.validateResponse response = Some e ->
  retryable e = false
  /\ cost e = match response with Some env => Some (or0 (resp_cost env)) | None => None end.
Proof.
  unfold ApiCall.validateResponse. destruct response as [env|].
  - destruct (is_20000 (status_code env)); simpl.
    + destruct (tasks env) as [[|task rest]|].
      * intros H. injection H as <-. split; reflexivity.
      * destruct (is_20000 (task_status_code task)); simpl; [discriminate|].
        intros H. injection H as <-. split; reflexivity.
      * intros H. injection H as <-. split; reflexivity.
    + intros H. injection H as <-. split; reflexivity.
  - intros H. injection H as <-. split; reflexivity.
Qed.

(** X26: [validateResponse] of the error handlers returns exactly when the
    envelope is present with status code 20000 and a first task with status
    code 20000; every error it throws is non-retryable and carries the
    envelope's [cost || 0] (no cost for a missing envelope). *)
Theorem validateResponse_accepts_successful_first_task {A}
    (response : option (DataForSEOResponse A)) :
  (ApiCall.validateResponse response = None
   <-> exists env task rest, response = Some env /\ status_code env = Some 20000
         /\ tasks env = Some (task :: rest) /\ task_status_code task = Some 20000)
  /\ (forall e, ApiCall.validateResponse response = Some e ->
        retryable e = false
        /\ cost e = match response with Some env => Some (or0 (resp_cost env)) | None => None end).
Proof.
  split; [split|].
  - apply validateResponse_ok.
  - intros (env & task & rest & -> & Hs & Ht & Hts).
    unfold ApiCall.validateResponse. rewrite Hs, Ht, Hts. reflexivity.
  - apply validateResponse_error_fields.
Qed.

End RetryCoverage.

Module ResponseAnalysisProps.
Import ResponseHandler ResponseAnalysis.

Lemma flat_map_filter_task_ok {A} (ts : list (DataForSEOTask A)) :
  flat_map (fun task => if task_ok task then
                          match task_result task with Some r => r | None => [] end
                        else []) ts
  = flat_map (fun task => match task_result task with Some r => r | None => [] end)
      (filter task_ok ts).
Proof.
  induction ts as [|t ts IH]; [reflexivity|]. simpl.
  destruct (task_ok t); simpl; rewrite IH; reflexivity.
Qed.

Lemma fold_result_lengths {A} (ts : list (DataForSEOTask A)) (a : nat) :
  fold_left (fun total task =>
               (total + match task_result task with Some r => length r | None => 0 end)%nat)
            ts a
  = (a + length (flat_map (fun task => match task_result task with Some r => r | None => [] end) ts))%nat.
Proof.
  revert a. induction ts as [|t ts IH]; intros a; simpl; [lia|].
  rewrite IH, length_app. destruct (task_result t); simpl; lia.
Qed.

(** X5: [extractAllResults] throws only when the tasks array is missing;
    otherwise it returns exactly the results of the tasks with status code
    20000, and the results [extractFirstTaskResults] returns come first. *)
Theorem extractAllResults_successful_tasks {A} (response : option (DataForSEOResponse A)) :
  (forall m, extractAllResults response = Throw m ->
     m = "Invalid DataForSEO response: missing tasks array"
     /\ forall r, response = Some r -> tasks r = None)
  /\ (forall l x, extractAllResults response = Ok l ->
        (In x l <-> exists r ts task res, response = Some r /\ tasks r = Some ts /\ In task ts
                    /\ task_status_code task = Some 20000 /\ task_result task = Some res
                    /\ In x res))
  /\ (forall first, extractFirstTaskResults response = Ok first ->
        exists rest, extractAllResults response = Ok (first ++ rest)%list).
Proof.
  unfold extractAllResults. split; [|split].
  - destruct response as [r|]; simpl.
    + destruct (tasks r) eqn:Et; [discriminate|].
      intros m H. injection H as <-. split; [reflexivity|]. intros r' H. injection H as <-. exact Et.
    + intros m H. injection H as <-. split; [reflexivity|]. discriminate.
  - intros l x. destruct response as [r|]; simpl; [|discriminate].
    destruct (tasks r) as [ts|] eqn:Et; [|discriminate].
    intros H. injection H as <-. rewrite in_flat_map. split.
    + intros (task & Ht & Hx). destruct (task_ok task) eqn:Hok; [|destruct Hx].
      destruct (task_result task) as [res|] eqn:Er; [|destruct Hx].
      exists r, ts, task, res. unfold task_ok, is_20000 in Hok.
      destruct (task_status_code task) as [c|] eqn:Ec; [|discriminate].
      apply Z.eqb_eq in Hok. subst c. auto 8.
    + intros (r' & ts' & task & res & Hr & Ets & Ht & Hc & Hres & Hx).
      injection Hr as <-. rewrite Et in Ets. injection Ets as <-.
      exists task. split; [exact Ht|]. unfold task_ok, is_20000. rewrite Hc, Hres. exact Hx.
  - intros first. unfold extractFirstTaskResults. destruct response as [r|]; simpl; [|discriminate].
    destruct (tasks r) as [[|t ts]|]; simpl; try discriminate.
    unfold task_ok, is_20000.
    destruct (match task_status_code t with Some c => Z.eqb c 20000 | None => false end);
      simpl; [|discriminate].
    intros H. injection H as <-. eexists. reflexivity.
Qed.

(** X6: in [getResponseSummary] the successful and failed task counts add up
    to the number of tasks, [totalResults] is the number of results
    [extractAllResults] returns, and a response without a tasks array
    reports no tasks and no results. *)
Theorem getResponseSummary_counts {A} (response : option (DataForSEOResponse A)) :
  let s := getResponseSummary response in
  (successfulTasks s + failedTasks s = totalTasks s)%nat
  /\ (forall l, extractAllResults response = Ok l -> totalResults s = length l)
  /\ (forall m, extractAllResults response = Throw m -> totalTasks s = 0%nat /\ totalResults s = 0%nat).
Proof.
  cbn zeta. unfold getResponseSummary, extractAllResults; simpl.
  split; [|split].
  - pose proof (filter_length_le task_ok
                  (match option_map tasks response with Some (Some ts) => ts | _ => [] end)).
    lia.
  - intros l. destruct (option_map tasks response) as [[ts|]|]; try discriminate.
    intros H. injection H as <-. rewrite fold_result_lengths, flat_map_filter_task_ok. reflexivity.
  - intros m. destruct (option_map tasks response) as [[ts|]|]; try discriminate;
      intros _; split; reflexivity.
Qed.

Lemma task_warnings_length {A} (ts : list (DataForSEOTask A)) (i : nat) :
  length (task_warnings i ts)
  = (length (filter (fun t => negb (task_ok t)) ts)
     + length (filter (fun t => match task_result t with None => true | Some _ => false end) ts))%nat.
Proof.
  revert i. induction ts as [|t ts IH]; intros i; [reflexivity|]. simpl.
  rewrite !length_app, IH.
  destruct (task_ok t), (task_result t); simpl; lia.
Qed.

(** X7: [validateResponse] reports a response as valid exactly when it is
    present, has status code 20000 and has a tasks array, and exactly when
    it lists no error; warnings never make it invalid, and for a tasks
    array there is one warning per failed task, one per task without
    results, and one more when the array is empty. *)
Theorem validateResponse_report {A} (response : option (DataForSEOResponse A)) :
  let v := validateResponse response in
  (isValid v = true <-> exists r ts, response = Some r /\ status_code r = Some 20000
                                     /\ tasks r = Some ts)
  /\ (isValid v = true <-> errors v = [])
  /\ (forall r ts, response = Some r -> tasks r = Some ts ->
        length (warnings v)
        = ((match ts with [] => 1 | _ => 0 end)
           + length (filter (fun t => negb (task_ok t)) ts)
           + length (filter (fun t => match task_result t with None => true | Some _ => false end) ts))%nat).
Proof.
  cbn zeta. unfold validateResponse. destruct response as [r|].
  - destruct (tasks r) as [ts|] eqn:Et.
    + unfold is_20000. destruct (status_code r) as [c|] eqn:Ec.
      * destruct (Z.eqb_spec c 20000) as [->|Hc]; simpl.
        -- split; [|split].
           ++ split; [intros _; exists r, ts; auto | reflexivity].
           ++ split; reflexivity.
           ++ intros r' ts' H Hts. injection H as <-. rewrite Et in Hts. injection Hts as <-.
              rewrite length_app, task_warnings_length. destruct ts; simpl; lia.
        -- split; [|split].
           ++ split; [discriminate|]. intros (r' & ts' & H & Hs & _). injection H as <-. congruence.
           ++ split; discriminate.
           ++ intros r' ts' H Hts. injection H as <-. rewrite Et in Hts. injection Hts as <-.
              rewrite length_app, task_warnings_length. destruct ts; simpl; lia.
      * simpl. split; [|split].
        -- split; [discriminate|]. intros (r' & ts' & H & Hs & _). injection H as <-. congruence.
        -- split; discriminate.
        -- intros r' ts' H Hts. injection H as <-. rewrite Et in Hts. injection Hts as <-.
           rewrite length_app, task_warnings_length. destruct ts; simpl; lia.
    + split; [|split].
      * split; [simpl; discriminate|]. intros (r' & ts' & H & _ & Hts). injection H as <-. congruence.
      * split; [simpl; discriminate|]. destruct (is_20000 (status_code r)); simpl; discriminate.
      * intros r' ts' H Hts. injection H as <-. congruence.
  - simpl. split; [|split].
    + split; [discriminate|]. intros (r' & ts' & H & _). discriminate.
    + split; discriminate.
    + intros r' ts' H. discriminate.
Qed.

End ResponseAnalysisProps.

Module TrendCoverage.
Import Metrics.

Lemma slice_between_short {X} (j k : nat) (xs : list X) :
  (length xs <= k)%nat -> slice_between j k xs = [].
Proof.
  intros H. unfold slice_between. replace (length xs - k)%nat with 0%nat by lia.
  simpl. destruct (length xs - j)%nat; reflexivity.
Qed.

Ltac split_yearly :=
  cbv zeta;
  repeat match goal with
         | |- context [match (if ?b then _ else _) with pair _ _ => _ end] => destruct b
         end.

(** X8: the trend helpers need enough history: [calculateTrend] reports
    ['no data'] for fewer than 4 points; [calculateAdvancedTrend] keeps
    [calculateTrend] as its monthly trend, reports an ['insufficient_data']
    quarterly trend below 6 points and yearly trend below 12 points, and
    from 3 points on it returns details whose [historical_months] is the
    number of points and whose year-over-year growth is only set from 24
    points on. *)
Theorem trend_history_thresholds (ms : list MonthPoint) :
  ((length ms < 4)%nat -> calculateTrend ms = "no data")
  /\ ((3 <= length ms)%nat -> monthly_trend (calculateAdvancedTrend ms) = calculateTrend ms)
  /\ ((length ms < 6)%nat -> quarterly_trend (calculateAdvancedTrend ms) = "insufficient_data")
  /\ ((length ms < 12)%nat -> yearly_trend (calculateAdvancedTrend ms) = "insufficient_data")
  /\ ((3 <= length ms)%nat ->
      exists d, details (calculateAdvancedTrend ms) = Some d
                /\ historical_months d = length ms
                /\ ((length ms < 24)%nat -> year_over_year_growth d = None)).
Proof.
  split; [|split; [|split; [|split]]].
  - intros H. unfold calculateTrend.
    destruct (Nat.ltb_spec (length ms) 2); [reflexivity|].
    rewrite (slice_between_short 6 3 ms) by lia.
    destruct (slice_last 3 ms); reflexivity.
  - intros H. unfold calculateAdvancedTrend.
    destruct (Nat.ltb_spec (length ms) 3); [lia|].
    split_yearly. all: reflexivity.
  - intros H. unfold calculateAdvancedTrend.
    destruct (Nat.ltb_spec (length ms) 3); [reflexivity|].
    rewrite length_map. destruct (Nat.leb_spec 6 (length ms)); [lia|].
    split_yearly. all: reflexivity.
  - intros H. unfold calculateAdvancedTrend.
    destruct (Nat.ltb_spec (length ms) 3); [reflexivity|].
    rewrite length_map. destruct (Nat.leb_spec 24 (length ms)); [lia|].
    destruct (Nat.leb_spec 12 (length ms)); [lia|].
    split_yearly. all: reflexivity.
  - intros H. unfold calculateAdvancedTrend.
    destruct (Nat.ltb_spec (length ms) 3); [lia|].
    rewrite length_map.
    destruct (Nat.leb_spec 24 (length ms)).
    + split_yearly. all: eexists; (split; [reflexivity|]); split; [reflexivity|]; intros; lia.
    + split_yearly. all: eexists; (split; [reflexivity|]); split; reflexivity.
Qed.

End TrendCoverage.

Module FlatTrendProps.
Import Metrics CompetitionProps.

Lemma skipn_repeat' {X} (x : X) (k n : nat) : skipn k (repeat x n) = repeat x (n - k).
Proof.
  revert n. induction k as [|k IH]; intros n; [rewrite Nat.sub_0_r; reflexivity|].
  destruct n; simpl; [reflexivity|]. apply IH.
Qed.

Lemma firstn_repeat' {X} (x : X) (k n : nat) : firstn k (repeat x n) = repeat x (Nat.min k n).
Proof.
  revert n. induction k as [|k IH]; intros n; [reflexivity|].
  destruct n; simpl; [reflexivity|]. rewrite IH. reflexivity.
Qed.

Lemma slice_last_repeat {X} (x : X) (k n : nat) :
  (k <= n)%nat -> slice_last k (repeat x n) = repeat x k.
Proof.
  intros H. unfold slice_last. rewrite repeat_length, skipn_repeat'. f_equal. lia.
Qed.

Lemma slice_between_repeat {X} (x : X) (j k n : nat) :
  (k <= j <= n)%nat -> slice_between j k (repeat x n) = repeat x (j - k).
Proof.
  intros H. unfold slice_between. rewrite repeat_length, firstn_repeat', skipn_repeat'.
  f_equal. lia.
Qed.

Lemma map_slice_last {X Y} (f : X -> Y) (k : nat) (l : list X) :
  map f (slice_last k l) = slice_last k (map f l).
Proof. unfold slice_last. rewrite length_map, skipn_map. reflexivity. Qed.

Lemma map_slice_between {X Y} (f : X -> Y) (j k : nat) (l : list X) :
  map f (slice_between j k l) = slice_between j k (map f l).
Proof. unfold slice_between. rewrite length_map, firstn_map, skipn_map. reflexivity. Qed.

Lemma map_const {X Y} (f : X -> Y) (y : Y) (l : list X) :
  (forall x, In x l -> f x = y) -> map f l = repeat y (length l).
Proof.
  induction l as [|x l IH]; intros H; simpl; [reflexivity|].
  rewrite (H x (or_introl eq_refl)), IH; [reflexivity|].
  intros z Hz. apply H. right. exact Hz.
Qed.

Lemma sumZ_repeat (v : Z) (k : nat) : sumZ (repeat v k) = Z.of_nat k * v.
Proof.
  unfold sumZ. enough (H : forall a, fold_left Z.add (repeat v k) a = a + Z.of_nat k * v)
    by (rewrite H; lia).
  induction k as [|k IH]; intros a; cbn [repeat fold_left]; [lia|]. rewrite IH, Nat2Z.inj_succ. ring.
Qed.

Lemma avgQ_repeat (v : Z) (k : nat) : (0 < k)%nat -> (avgQ (repeat v k) == inject_Z v)%Q.
Proof.
  intros Hk. unfold avgQ. rewrite sumZ_repeat, repeat_length, inject_Z_mult.
  assert (Hn : ~ (inject_Z (Z.of_nat k) == 0)%Q).
  { unfold Qeq. simpl. lia. }
  field. exact Hn.
Qed.

Lemma change_zero (x : Q) : ((x - x) / x * 100 == 0)%Q.
Proof. unfold Qdiv. ring. Qed.

Lemma trend_string_stable (band c : Q) :
  (0 <= band)%Q -> (c == 0)%Q -> trend_string band c = "stable".
Proof.
  intros Hb Hc. unfold trend_string.
  assert (E1 : Qgt c band = false) by (apply Qgt_false; rewrite Hc; exact Hb).
  assert (E2 : Qgt (- band) c = false) by (apply Qgt_false; rewrite Hc; lra).
  rewrite E1, E2. reflexivity.
Qed.

Lemma sq_nonneg (x : Q) : (0 <= x * x)%Q.
Proof. destruct x as [p q]. unfold Qle, Qmult. simpl. nia. Qed.

Lemma fold_maxZ_repeat (v : Z) (k : nat) : fold_left Z.max (repeat v k) v = v.
Proof. induction k as [|k IH]; simpl; [reflexivity|]. rewrite Z.max_id. exact IH. Qed.

Lemma fold_minZ_repeat (v : Z) (k : nat) : fold_left Z.min (repeat v k) v = v.
Proof. induction k as [|k IH]; simpl; [reflexivity|]. rewrite Z.min_id. exact IH. Qed.

Lemma fold_sq_repeat (v : Z) (m : Q) (k : nat) (a : Q) :
  (inject_Z v == m)%Q ->
  (fold_left (fun acc x => acc + (inject_Z x - m) * (inject_Z x - m)) (repeat v k) a == a)%Q.
Proof.
  intros Hm. revert a. induction k as [|k IH]; intros a; simpl; [reflexivity|].
  rewrite IH. rewrite Hm. ring.
Qed.

(** X9: a history of at least 6 months that all have the same positive
    search volume is reported as flat: [calculateTrend] and the monthly and
    quarterly trends are ['stable'], the yearly trend is ['stable'] from 12
    months on (['insufficient_data'] below), and seasonality and volatility
    are ['low']. *)
Theorem flat_history_is_stable (ms : list MonthPoint) (v : Z) :
  0 < v -> (6 <= length ms)%nat -> (forall p, In p ms -> volume_of p = v) ->
  let t := calculateAdvancedTrend ms in
  calculateTrend ms = "stable"
  /\ monthly_trend t = "stable"
  /\ quarterly_trend t = "stable"
  /\ yearly_trend t = (if Nat.leb 12 (length ms) then "stable" else "insufficient_data")
  /\ seasonality t = "low"
  /\ volatility t = "low".
Proof.
  intros Hv Hn Hall. cbn zeta.
  pose proof (map_const volume_of v ms Hall) as Hrep.
  set (n := length ms) in *.
  assert (Hvq : (0 < inject_Z v)%Q) by (change 0%Q with (inject_Z 0); rewrite <- Zlt_Qlt; exact Hv).
  assert (Htrend : calculateTrend ms = "stable").
  { unfold calculateTrend. fold n. destruct (Nat.ltb_spec n 2); [lia|].
    assert (Hr : map volume_of (slice_last 3 ms) = repeat v 3).
    { rewrite map_slice_last, Hrep. apply slice_last_repeat. lia. }
    assert (Ho : map volume_of (slice_between 6 3 ms) = repeat v 3).
    { rewrite map_slice_between, Hrep. apply slice_between_repeat. lia. }
    destruct (slice_last 3 ms) as [|r rs]; [discriminate|].
    destruct (slice_between 6 3 ms) as [|o os]; [discriminate|].
    rewrite Hr, Ho.
    destruct (Qeq_bool (avgQ (repeat v 3)) 0) eqn:E.
    - apply Qeq_bool_iff in E. rewrite avgQ_repeat in E by lia. lra.
    - apply trend_string_stable; [lra | apply change_zero]. }
  split; [exact Htrend|].
  unfold calculateAdvancedTrend. fold n. destruct (Nat.ltb_spec n 3); [lia|].
  rewrite Hrep, repeat_length.
  destruct (Nat.leb_spec 6 n); [|lia].
  rewrite (slice_last_repeat v 3 n), (slice_between_repeat v 6 3 n) by lia.
  simpl (6 - 3)%nat.
  assert (Eq : Qgt (inject_Z (sumZ (repeat v 3)) / 3) 0 = true).
  { apply Qgt_true. rewrite sumZ_repeat, inject_Z_mult.
    apply Qlt_shift_div_l; [reflexivity|]. unfold inject_Z at 1. simpl. lra. }
  rewrite Eq.
  destruct n as [|n'] eqn:En; [lia|].
  cbn [maxZ minZ repeat]. rewrite fold_maxZ_repeat, fold_minZ_repeat, Z.sub_diag.
  assert (Ez : Z.ltb 0 v = true) by (apply Z.ltb_lt; exact Hv). rewrite Ez.
  assert (Es : forall t, Qgt (inject_Z 0 / inject_Z v * 100) t = false <-> (0 <= t)%Q).
  { intros t. rewrite Qgt_false. assert (Hz0 : (inject_Z 0 / inject_Z v * 100 == 0)%Q)
      by (unfold Qdiv; simpl; ring). rewrite Hz0. reflexivity. }
  rewrite (proj2 (Es 60%Q)), (proj2 (Es 40%Q)), (proj2 (Es 25%Q)) by lra.
  set (mean := avgQ (v :: repeat v n')).
  assert (Hmean : (inject_Z v == mean)%Q).
  { unfold mean. change (v :: repeat v n') with (repeat v (S n')).
    rewrite avgQ_repeat by lia. reflexivity. }
  set (variance := (fold_left (fun acc x => acc + (inject_Z x - mean) * (inject_Z x - mean))
                     (v :: repeat v n') 0 / inject_Z (Z.of_nat (S n')))%Q).
  assert (Hvar : (variance == 0)%Q).
  { unfold variance. change (v :: repeat v n') with (repeat v (S n')).
    rewrite (fold_sq_repeat v mean (S n') 0 Hmean). unfold Qdiv. ring. }
  assert (Hvol : forall t, volatility_gt variance mean t = false).
  { intros t. unfold volatility_gt. apply andb_false_iff. right.
    apply Qgt_false. rewrite Hvar. apply sq_nonneg. }
  rewrite !Hvol.
  change (v :: repeat v n') with (repeat v (S n')).
  rewrite <- En.
  destruct (Nat.leb_spec 24 n).
  - rewrite (slice_last_repeat v 12 n), (slice_between_repeat v 24 12 n) by lia.
    simpl (24 - 12)%nat.
    assert (Ey : Qgt (inject_Z (sumZ (repeat v 12))) 0 = true).
    { apply Qgt_true. rewrite sumZ_repeat. change 0%Q with (inject_Z 0).
      rewrite <- Zlt_Qlt. lia. }
    rewrite Ey. destruct (Nat.leb_spec 12 n); [|lia].
    cbn [monthly_trend quarterly_trend yearly_trend seasonality volatility].
    rewrite !trend_string_stable by (lra || apply change_zero).
    rewrite Htrend. repeat split.
  - destruct (Nat.leb_spec 12 n).
    + rewrite firstn_repeat', (slice_last_repeat v 6 n) by lia.
      replace (Nat.min 6 n) with 6%nat by lia.
      assert (Ey : Qgt (avgQ (repeat v 6)) 0 = true).
      { apply Qgt_true. rewrite avgQ_repeat by lia. exact Hvq. }
      rewrite Ey.
      cbn [monthly_trend quarterly_trend yearly_trend seasonality volatility].
      rewrite !trend_string_stable by (lra || apply change_zero).
      rewrite Htrend. repeat split.
    + cbn [monthly_trend quarterly_trend yearly_trend seasonality volatility].
      rewrite !trend_string_stable by (lra || apply change_zero).
      rewrite Htrend. repeat split.
Qed.

Definition flat_history : list MonthPoint :=
  map (fun m => mkMonthPoint (Some 2024) (Some m) (Some 1500)) [1; 2; 3; 4; 5; 6].

Lemma flat_history_is_stable_witness :
  quarterly_trend (calculateAdvancedTrend flat_history) = "stable".
Proof.
  apply (flat_history_is_stable flat_history 1500);
    [lia | simpl; lia | intros p Hp; simpl in Hp; repeat destruct Hp as [<-|Hp]; try reflexivity; destruct Hp].
Defined.

End FlatTrendProps.

Module SerpStrategyProps.
Import Metrics SerpProps.

Lemma ctr_penalty_pos (f : string) : 2 <= ctr_penalty f <= 12.
Proof.
  unfold ctr_penalty.
  repeat match goal with |- context [if ?b then _ else _] => destruct b end; lia.
Qed.

Lemma total_penalty_bounds (fs : list string) :
  2 * Z.of_nat (length fs) <= total_penalty fs.
Proof.
  induction fs as [|f fs IH]; simpl; [lia|].
  pose proof (ctr_penalty_pos f). lia.
Qed.

(** X10: for any feature list, [analyzeSerpStrategy] gives a CTR impact
    between -50 and 0 that is 0 exactly for an empty list; its strategic
    priority is the high-competition one exactly when there are 3 or more
    features, which is exactly when the organic competition is ['high'] or
    ['very_high']; it always lists two competition indicators. *)
Theorem analyzeSerpStrategy_bounds (fs : list string) :
  let s := analyzeSerpStrategy fs in
  -50 <= estimated_ctr_impact s <= 0
  /\ (estimated_ctr_impact s = 0 <-> fs = [])
  /\ (strategic_priority s = "high_competition_strategy" <-> (3 <= length fs)%nat)
  /\ (strategic_priority s = "high_competition_strategy"
      <-> In (organic_competition s) ["high"; "very_high"])
  /\ length (competition_indicators s) = 2%nat.
Proof.
  cbn zeta. unfold analyzeSerpStrategy. cbn [estimated_ctr_impact strategic_priority
    organic_competition competition_indicators].
  rewrite ctr_fold. pose proof (total_penalty_bounds fs) as Hp.
  split; [lia|]. split.
  - split; [|intros ->; reflexivity].
    intros H. destruct fs as [|f fs]; [reflexivity|]. simpl length in Hp. lia.
  - split; [|split].
    + destruct (Nat.leb_spec 3 (length fs)); split; intros Hx; try reflexivity; try lia; discriminate.
    + destruct (Nat.leb_spec 3 (length fs)).
      * destruct (Nat.leb_spec 4 (length fs)); simpl; tauto.
      * destruct (Nat.leb_spec 4 (length fs)); [lia|].
        destruct (Nat.leb 2 (length fs)); simpl; split; [discriminate| |discriminate|];
          intros [Hy|[Hy|[]]]; discriminate.
    + destruct (Nat.leb 5 _); [reflexivity|]. destruct (Nat.leb 3 _); [reflexivity|].
      destruct (Nat.leb 1 _); reflexivity.
Qed.

End SerpStrategyProps.

Module PaidCoverage.
Import Metrics DedupProps PaidProps.

Definition paid_domain (ad : SerpItem) : list string :=
  match domain ad with Some d => if String.eqb d "" then [] else [d] | None => [] end.

Lemma paid_domain_length (ad : SerpItem) : (length (paid_domain ad) <= 1)%nat.
Proof. unfold paid_domain. destruct (domain ad); [destruct (String.eqb _ _)|]; simpl; lia. Qed.

Lemma flat_map_paid_domain_length (ads : list SerpItem) :
  (length (flat_map paid_domain ads) <= length ads)%nat.
Proof.
  induction ads as [|a ads IH]; simpl; [lia|].
  rewrite length_app. pose proof (paid_domain_length a). lia.
Qed.

Lemma dedup_length (xs : list string) : (length (dedup xs) <= length xs)%nat.
Proof.
  apply NoDup_incl_length; [apply dedup_NoDup|].
  intros x Hx. apply dedup_In. exact Hx.
Qed.

(** X11: [analyzePaidCompetition] counts the items of type ['paid']; its
    advertiser domains are without duplicates, are exactly the non-empty
    domains of paid items, and are at most as many as the ads; the level
    is ['none'] and no average quality is reported exactly when there is no
    paid item. *)
Theorem analyzePaidCompetition_domains (serpResults : list SerpItem) (platform : string) :
  let p := analyzePaidCompetition serpResults platform in
  ads_count p = length (filter (fun r => type_is r "paid") serpResults)
  /\ NoDup (advertiser_domains p)
  /\ (forall d, In d (advertiser_domains p)
        <-> exists r, In r serpResults /\ type_is r "paid" = true /\ domain r = Some d /\ d <> "")
  /\ (length (advertiser_domains p) <= ads_count p)%nat
  /\ (ads_count p = 0%nat <-> paid_competition_level p = "none")
  /\ (ads_count p = 0%nat <-> average_ad_quality p = None).
Proof.
  cbn zeta. unfold analyzePaidCompetition.
  destruct (filter (fun r => type_is r "paid") serpResults) as [|a ads] eqn:Ef.
  - simpl. split; [reflexivity|]. split; [constructor|]. split.
    + intros d. split; [intros []|]. intros (r & Hr & Ht & _).
      assert (Hin : In r (filter (fun r => type_is r "paid") serpResults))
        by (apply filter_In; split; assumption).
      rewrite Ef in Hin. destruct Hin.
    + split; [lia|]. split; split; reflexivity.
  - rewrite <- Ef. cbn [ads_count advertiser_domains paid_competition_level average_ad_quality].
    fold paid_domain.
    split; [reflexivity|]. split; [apply dedup_NoDup|]. split; [|split; [|split]].
    + intros d. rewrite dedup_In, in_flat_map. split.
      * intros (r & Hr & Hd). apply filter_In in Hr as [Hr Ht].
        exists r. split; [exact Hr|]. split; [exact Ht|].
        unfold paid_domain in Hd. destruct (domain r) as [d'|]; [|destruct Hd].
        destruct (String.eqb_spec d' ""); [destruct Hd|].
        destruct Hd as [<-|[]]. split; [reflexivity | exact n].
      * intros (r & Hr & Ht & Hd & Hne). exists r. split; [apply filter_In; split; assumption|].
        unfold paid_domain. rewrite Hd. destruct (String.eqb_spec d ""); [contradiction|].
        left; reflexivity.
    + eapply Nat.le_trans; [apply dedup_length|]. apply flat_map_paid_domain_length.
    + rewrite Ef. simpl length. split; [discriminate|].
      destruct (Nat.leb 8 _); [discriminate|]. destruct (Nat.leb 5 _); [discriminate|].
      destruct (Nat.leb 3 _); discriminate.
    + rewrite Ef. simpl length. split; discriminate.
Qed.

Lemma avg_quality_ge5 (ads : list SerpItem) (a : SerpItem) :
  let scores := map calculateAdQuality (a :: ads) in
  (5 <= fold_left Qplus scores 0 / inject_Z (Z.of_nat (length scores)))%Q.
Proof.
  cbn zeta. set (scores := map calculateAdQuality (a :: ads)).
  assert (Hs : forall x, In x scores -> (5 <= x <= 10)%Q).
  { intros x Hx. apply in_map_iff in Hx as (b & <- & _). apply calculateAdQuality_bounds. }
  pose proof (fold_Qplus_bounds scores 0 Hs) as [L _].
  assert (Hn : (0 < inject_Z (Z.of_nat (length scores)))%Q).
  { unfold scores. rewrite length_map. simpl length. unfold Qlt. simpl. lia. }
  apply Qle_shift_div_l; [exact Hn | lra].
Qed.

(** X12: [analyzePaidCompetition] never reports the low-quality insight
    ('Room for improvement in ad quality ...'): the average ad quality it
    is based on is always at least 5. *)
Theorem paid_insights_never_low_quality (serpResults : list SerpItem) (platform : string) :
  ~ In "Room for improvement in ad quality - competitive advantage possible"
      (strategic_insights (analyzePaidCompetition serpResults platform)).
Proof.
  unfold analyzePaidCompetition.
  destruct (filter (fun r => type_is r "paid") serpResults) as [|a ads] eqn:Ef.
  - simpl. intuition discriminate.
  - cbn [strategic_insights]. unfold generatePaidCompetitionInsights.
    pose proof (avg_quality_ge5 ads a) as H5. cbn zeta in H5.
    set (avg := (fold_left Qplus (map calculateAdQuality (a :: ads)) 0
                 / inject_Z (Z.of_nat (length (map calculateAdQuality (a :: ads)))))%Q) in *.
    assert (Hg : Qgt 5 avg = false) by (apply CompetitionProps.Qgt_false; exact H5).
    rewrite Hg.
    repeat rewrite in_app_iff.
    repeat match goal with |- context [if ?b then _ else _] => destruct b end;
      simpl; intuition discriminate.
Qed.

End PaidCoverage.

Module AdapterCoverage.
Import ResponseHandler Metrics Adapters.

Lemma lower_ascii_idem (c : ascii) : lower_ascii (lower_ascii c) = lower_ascii c.
Proof. destruct c as [[] [] [] [] [] [] [] []]; reflexivity. Qed.

Lemma toLowerCase_idem (s : string) : toLowerCase (toLowerCase s) = toLowerCase s.
Proof. induction s as [|c s IH]; simpl; [reflexivity|]. rewrite lower_ascii_idem, IH. reflexivity. Qed.

(** X13: [determineSearchIntent] does not depend on the letter case of the
    keyword: lower-casing the keyword first gives the same intent. *)
Theorem determineSearchIntent_case_insensitive (serpResults : list SerpItem) (keyword : string) :
  determineSearchIntent serpResults (toLowerCase keyword) = determineSearchIntent serpResults keyword.
Proof. unfold determineSearchIntent. rewrite toLowerCase_idem. reflexivity. Qed.

(** X14: the keyword-difficulty report of [getKeywordDifficulty] and
    [getBingKeywordDifficulty] has no score exactly when its complexity is
    ['unknown'] and exactly when its level is ['unknown']; a reported API
    error comes with no score and cost 0; and the two scales agree: level
    ['high'] goes with complexity ['hard'] or ['very_hard'], ['medium'] with
    ['medium'] or ['hard'], ['low'] with ['moderate'] or ['easy']. *)
Theorem keyword_difficulty_scales (engine keyword : string)
    (response : Res (FetchResponse DifficultyResult)) :
  let d := fst (keyword_difficulty_call engine keyword response) in
  let c := snd (keyword_difficulty_call engine keyword response) in
  (difficulty_score d = None <-> complexity d = "unknown")
  /\ (difficulty_score d = None <-> difficulty_level d = "unknown")
  /\ (api_error d <> None -> difficulty_score d = None /\ c = 0%Q)
  /\ (difficulty_level d = "high" -> In (complexity d) ["hard"; "very_hard"])
  /\ (difficulty_level d = "medium" -> In (complexity d) ["medium"; "hard"])
  /\ (difficulty_level d = "low" -> In (complexity d) ["moderate"; "easy"]).
Proof.
  cbn zeta.
  assert (Hfail : forall m,
    let d := fst (mkKeywordDifficulty None "unknown" "unknown" (Some m), 0%Q) in
    let c := snd (mkKeywordDifficulty None "unknown" "unknown" (Some m), 0%Q) in
    (difficulty_score d = None <-> complexity d = "unknown")
    /\ (difficulty_score d = None <-> difficulty_level d = "unknown")
    /\ (api_error d <> None -> difficulty_score d = None /\ c = 0%Q)
    /\ (difficulty_level d = "high" -> In (complexity d) ["hard"; "very_hard"])
    /\ (difficulty_level d = "medium" -> In (complexity d) ["medium"; "hard"])
    /\ (difficulty_level d = "low" -> In (complexity d) ["moderate"; "easy"])).
  { intros m. simpl. repeat split; try discriminate. }
  unfold keyword_difficulty_call.
  destruct response as [resp|m]; [|apply Hfail].
  destruct (negb (ok resp)); [apply Hfail|].
  destruct (json resp) as [result|]; [|apply Hfail].
  destruct (negb _); [apply Hfail|].
  destruct (find _ _) as [it|].
  - set (s := match keyword_difficulty it with Some d => d | None => 0 end).
    simpl. unfold complexity_of.
    split; [split; [discriminate|]|].
    { destruct (Z.ltb 80 s); [discriminate|]. destruct (Z.ltb 60 s); [discriminate|].
      destruct (Z.ltb 40 s); [discriminate|]. destruct (Z.ltb 20 s); discriminate. }
    split; [split; [discriminate|]|].
    { destruct (Z.ltb 70 s); [discriminate|]. destruct (Z.ltb 40 s); discriminate. }
    split; [intros H; exfalso; apply H; reflexivity|].
    destruct (Z.ltb_spec 70 s); [|destruct (Z.ltb_spec 40 s)];
      (split; [|split]); intros Hl; try discriminate;
      destruct (Z.ltb_spec 80 s); try (simpl; tauto);
      destruct (Z.ltb_spec 60 s); try (simpl; tauto); try lia;
      destruct (Z.ltb_spec 40 s); try (simpl; tauto); try lia;
      destruct (Z.ltb_spec 20 s); simpl; tauto.
  - simpl. repeat split; try discriminate. all: match goal with Hn : None <> None |- _ => exfalso; apply Hn; reflexivity end.
Qed.


Lemma getBingKeywordData_cost (keyword : string) resp bd c :
  getBingKeywordData keyword (Ok resp) = Ok (bd, c) ->
  exists items, serpResults (json resp) = Ok items /\ b_results bd = items
                /\ c = getTotalCost (json resp).
Proof.
  unfold getBingKeywordData. destruct (negb (ok resp)); [discriminate|].
  destruct (serpResults (json resp)) as [items|]; [|discriminate].
  intros H. injection H as <- <-. exists items. auto.
Qed.

(** Upstream outcomes where the keyword-data, SERP and paid-ads calls and
    the Bing SERP call succeed and the difficulty calls fail. *)
Definition cov_keyword_envelope : option (DataForSEOResponse KeywordItem) :=
  Some (mkResponse (Some 20000) (Some "Ok.") (Some (2 # 100))
          (Some [mkTask (Some 20000) (Some "Ok.") (Some (2 # 100))
                   (Some [mkKeywordItem (Some 5400) (Some (3 # 10)) (Some (1 # 1)) None])])).

Definition cov_serp_envelope : option (DataForSEOResponse SerpEntry) :=
  Some (mkResponse (Some 20000) (Some "Ok.") (Some (1 # 100))
          (Some [mkTask (Some 20000) (Some "Ok.") (Some (1 # 100))
                   (Some [SerpWrapper [mkSerpItem (Some "organic") (Some "example.com") (Some "Example")
                                         None None None None None None]])])).

Definition cov_upstream : Upstream unit :=
  mkUpstream (Ok cov_keyword_envelope) (Ok cov_serp_envelope) (Ok cov_serp_envelope)
    (Throw "fetch failed") (Ok (mkFetchResponse true 200 "OK" cov_serp_envelope))
    (Throw "fetch failed") (Ok (tt, 0%Q)).



(** X16: a successful single-source Bing request lists only ['bing'], its
    entry carries the SERP results of the Bing call, and its advanced
    trends are always the empty-history ones (three ['insufficient_data']
    trends, ['unknown'] seasonality and volatility, no details), whatever
    the SERP; its cost is the SERP envelope's total cost plus the
    difficulty call's cost. *)
Theorem bing_source_entry_and_cost {Y} (keyword : string) (up : Upstream Y) resp r :
  up_bing_serp up = Ok resp ->
  getKeywordIntelligence keyword "bing" up = Ok r ->
  exists bd items, sources_queried r = ["bing"]
    /\ serpResults (json resp) = Ok items /\ b_results bd = items
    /\ search_engines r
       = [("bing", BingEntry bd
                     (difficulty_score (fst (getBingKeywordDifficulty keyword (up_bing_difficulty up))))
                     (complexity (fst (getBingKeywordDifficulty keyword (up_bing_difficulty up))))
                     (mkAdvancedTrend "insufficient_data" "insufficient_data" "insufficient_data"
                        "unknown" "unknown" None))]
    /\ total_cost r = (getTotalCost (json resp)
                       + snd (getBingKeywordDifficulty keyword (up_bing_difficulty up)))%Q.
Proof.
  intros Hb Hr. unfold getKeywordIntelligence in Hr. simpl in Hr.
  rewrite Hb in Hr.
  destruct (getBingKeywordData keyword (Ok resp)) as [[bd c]|m] eqn:Eb; [|discriminate].
  apply getBingKeywordData_cost in Eb as (items & Hi & Hres & ->).
  injection Hr as <-. exists bd, items. auto 6.
Qed.

Lemma bing_source_entry_and_cost_witness :
  exists r, getKeywordIntelligence "seo tools" "bing" cov_upstream = Ok r
            /\ total_cost r = ((1 # 100) + 0)%Q.
Proof.
  eexists. split; [reflexivity|].
  destruct (bing_source_entry_and_cost "seo tools" cov_upstream
              (mkFetchResponse true 200 "OK" cov_serp_envelope) _ eq_refl eq_refl)
    as (bd & items & _ & _ & _ & _ & H).
  exact H.
Defined.

End AdapterCoverage.

Module YouTubeAdapterProps.
Import ResponseHandler Metrics Adapters YouTube.

(** X17: when [getYouTubeKeywordData] succeeds, the HTTP response was ok and
    its video results extracted; [video_count] is the number of all
    results while [videos] keeps only the first 10 of them, the engagement
    metrics count the same videos, and the cost is the envelope's total
    cost. *)
Theorem getYouTubeKeywordData_counts (keyword : string)
    (response : Res (FetchResponse VideoEntry)) (d : YouTubeData) (c : Q) :
  getYouTubeKeywordData keyword response = Ok (d, c) ->
  exists resp vs, response = Ok resp /\ ok resp = true /\ videoResultsOf (json resp) = Ok vs
    /\ video_count d = length vs
    /\ videos d = firstn 10 vs
    /\ length (videos d) = Nat.min 10 (video_count d)
    /\ total_videos_analyzed (engagement_metrics d)
       = match vs with [] => None | _ => Some (video_count d) end
    /\ c = getTotalCost (json resp).
Proof.
  unfold getYouTubeKeywordData. destruct response as [resp|m]; [|discriminate].
  destruct (ok resp) eqn:Eok; cbn [negb]; [|discriminate].
  destruct (videoResultsOf (json resp)) as [vs|m] eqn:Ev; [|discriminate].
  intros H. injection H as <- <-. exists resp, vs.
  cbn [video_count videos engagement_metrics].
  split; [reflexivity|]. split; [exact Eok|]. split; [exact Ev|].
  split; [reflexivity|]. split; [reflexivity|]. split; [change (length (firstn 10 vs) = Nat.min 10 (length vs)); apply length_firstn|].
  split; [|reflexivity].
  unfold analyzeVideoEngagement. destruct vs as [|v vs]; [reflexivity|].
  destruct (fold_left _ _ _). reflexivity.
Qed.

Definition sample_video_envelope : option (DataForSEOResponse VideoEntry) :=
  Some (mkResponse (Some 20000) (Some "Ok.") (Some (3 # 1000))
          (Some [mkTask (Some 20000) (Some "Ok.") (Some (3 # 1000))
                   (Some [VideoWrapper [mkVideoItem (Some 250000) (Some "SEO Tutorial 2025");
                                        mkVideoItem (Some 1200) (Some "Keyword research basics")]])])).

Lemma getYouTubeKeywordData_counts_witness :
  exists d c, getYouTubeKeywordData "seo"
                (Ok (mkFetchResponse true 200 "OK" sample_video_envelope)) = Ok (d, c)
    /\ video_count d = 2%nat /\ c = (3 # 1000)%Q.
Proof.
  do 2 eexists. split; [reflexivity|].
  destruct (getYouTubeKeywordData_counts "seo" (Ok (mkFetchResponse true 200 "OK" sample_video_envelope))
              _ _ eq_refl) as (resp & vs & Er & _ & Ev & Hc & _ & _ & _ & Hcost).
  injection Er as <-. simpl in Ev. injection Ev as <-. split; [exact Hc | exact Hcost].
Defined.

End YouTubeAdapterProps.

Module YouTubeProps.
Import Metrics Adapters YouTube DedupProps PaidProps.

Definition sum_views (vs : list VideoItem) : Z :=
  fold_right (fun v acc => views_of v + acc) 0 vs.

Lemma engagement_fold (vs : list VideoItem) (t : Z) (c : nat) :
  fold_left (fun acc video =>
               let '(totalViews, highEngagementCount) := acc in
               let views := views_of video in
               (totalViews + views,
                if Z.ltb 100000 views then S highEngagementCount else highEngagementCount))
            vs (t, c)
  = (t + sum_views vs, (c + length (filter (fun v => Z.ltb 100000 (views_of v)) vs))%nat).
Proof.
  revert t c. induction vs as [|v vs IH]; intros t c; simpl.
  - f_equal; lia.
  - rewrite IH. destruct (Z.ltb 100000 (views_of v)); simpl; f_equal; lia.
Qed.

Lemma sum_views_bounds (vs : list VideoItem) (lo hi : Z) :
  (forall v, In v vs -> lo <= views_of v <= hi) ->
  lo * Z.of_nat (length vs) <= sum_views vs <= hi * Z.of_nat (length vs).
Proof.
  induction vs as [|v vs IH]; intros Hb; simpl; [lia|].
  assert (Hv : lo <= views_of v <= hi) by (apply Hb; left; reflexivity).
  assert (Hr : lo * Z.of_nat (length vs) <= sum_views vs <= hi * Z.of_nat (length vs))
    by (apply IH; intros w Hw; apply Hb; right; exact Hw).
  lia.
Qed.

(** X18: for a non-empty list of videos whose view counts lie in
    [[lo, hi]], [analyzeVideoEngagement] reports a rounded average in
    [[lo, hi]], counts as high-engagement exactly the videos with more than
    100000 views, and reports the number of videos analyzed. *)
Theorem analyzeVideoEngagement_average_bounds (videoResults : list VideoItem) (lo hi : Z) :
  videoResults <> [] ->
  (forall v, In v videoResults -> lo <= views_of v <= hi) ->
  let e := analyzeVideoEngagement videoResults in
  lo <= average_views e <= hi
  /\ high_engagement_count e = length (filter (fun v => Z.ltb 100000 (views_of v)) videoResults)
  /\ total_videos_analyzed e = Some (length videoResults).
Proof.
  intros Hne Hb. cbn zeta. unfold analyzeVideoEngagement.
  destruct videoResults as [|v0 vs0] eqn:Ev; [contradiction|]. rewrite <- Ev. rewrite <- Ev in Hb.
  rewrite engagement_fold. cbn [average_views high_engagement_count total_videos_analyzed].
  split; [|split; [reflexivity | reflexivity]].
  pose proof (sum_views_bounds videoResults lo hi Hb) as [L U].
  assert (Hn : (0 < Z.of_nat (length videoResults))%Z) by (rewrite Ev; simpl; lia).
  set (n := Z.of_nat (length videoResults)) in *.
  set (s := sum_views videoResults) in *.
  apply js_round_bounds.
  assert (Hq : (0 < inject_Z n)%Q) by (change 0%Q with (inject_Z 0); rewrite <- Zlt_Qlt; exact Hn).
  rewrite Z.add_0_l.
  split.
  - apply Qle_shift_div_l; [exact Hq|]. rewrite <- inject_Z_mult, <- Zle_Qle. exact L.
  - apply Qle_shift_div_r; [exact Hq|]. rewrite <- inject_Z_mult, <- Zle_Qle. exact U.
Qed.

Lemma analyzeVideoEngagement_average_bounds_witness :
  let vs := [mkVideoItem (Some 250000) (Some "SEO Tutorial 2025");
             mkVideoItem (Some 1200) (Some "Keyword research basics")] in
  1200 <= average_views (analyzeVideoEngagement vs) <= 250000.
Proof.
  intros vs.
  assert (Hne : vs <> []) by discriminate.
  assert (Hb : forall v, In v vs -> 1200 <= views_of v <= 250000).
  { intros v Hv. simpl in Hv. destruct Hv as [<-|[<-|[]]]; unfold views_of; simpl; lia. }
  exact (proj1 (analyzeVideoEngagement_average_bounds vs 1200 250000 Hne Hb)).
Defined.

Lemma video_themes_incl (title : string) :
  incl (video_themes title) ["educational"; "review"; "beginner"; "advanced"; "current"].
Proof.
  unfold video_themes. intros x.
  repeat rewrite in_app_iff.
  repeat match goal with |- context [if ?b then _ else _] => destruct b end;
    simpl; intuition.
Qed.

Lemma video_themes_educational (title : string) :
  In "educational" (video_themes title)
  <-> (includes title "tutorial" || includes title "how to") = true.
Proof.
  unfold video_themes. repeat rewrite in_app_iff.
  destruct (includes title "tutorial" || includes title "how to");
  repeat match goal with |- context [if ?b then _ else _] => destruct b end;
    simpl; intuition discriminate.
Qed.

(** X19: [analyzeVideoThemes] lists each theme at most once, only among
    ['educational'], ['review'], ['beginner'], ['advanced'] and
    ['current']; the result does not depend on the keyword; and
    ['educational'] is listed exactly when some video's lower-cased title
    contains ['tutorial'] or ['how to']. *)
Theorem analyzeVideoThemes_props (videoResults : list VideoItem) (keyword : string) :
  let t := analyzeVideoThemes videoResults keyword in
  NoDup t
  /\ incl t ["educational"; "review"; "beginner"; "advanced"; "current"]
  /\ (forall keyword', analyzeVideoThemes videoResults keyword' = t)
  /\ (In "educational" t
      <-> exists v, In v videoResults
                    /\ (includes (toLowerCase (or_str (video_title v) "")) "tutorial"
                        || includes (toLowerCase (or_str (video_title v) "")) "how to") = true).
Proof.
  cbn zeta. unfold analyzeVideoThemes. split; [apply dedup_NoDup|]. split; [|split].
  - intros x Hx. apply dedup_In, in_flat_map in Hx as (v & _ & Hx).
    apply (video_themes_incl _ x Hx).
  - intros k'. reflexivity.
  - rewrite dedup_In, in_flat_map. split.
    + intros (v & Hv & Hx). exists v. split; [exact Hv|]. apply video_themes_educational. exact Hx.
    + intros (v & Hv & Hx). exists v. split; [exact Hv|]. apply video_themes_educational. exact Hx.
Qed.

End YouTubeProps.

Module SummaryProps.
Import Metrics Adapters YouTube Summary.

(** Case split on the innermost [if]s first. *)
Ltac destr_ifs :=
  repeat match goal with
         | |- context [if ?b then _ else _] =>
             lazymatch b with
             | context [if _ then _ else _] => fail
             | _ => destruct b eqn:?
             end
         end.

Ltac bool_facts :=
  repeat match goal with
         | H : (_ && _)%bool = true |- _ => apply andb_true_iff in H as [? ?]
         | H : Z.eqb _ _ = true |- _ => apply Z.eqb_eq in H
         | H : Z.ltb _ _ = true |- _ => apply Z.ltb_lt in H
         | H : Z.ltb _ _ = false |- _ => apply Z.ltb_ge in H
         end.

(** X20: [generateKeywordSummary] takes its total volume from Google alone;
    without Google data the overall competition is ['unknown']; the
    strategy is the multi-platform one exactly when the best platform is
    ['multi-platform']; ['bing'] is only chosen with a total volume of 0,
    and ['youtube'] and ['unknown'] only without Google data. *)
Theorem generateKeywordSummary_props (google : option (option Z * option Q))
    (bing : option (option Z)) (youtube : option (option Z)) :
  let s := generateKeywordSummary google bing youtube in
  total_volume s = match google with Some (Some v, _) => v | _ => 0 end
  /\ (google = None -> overall_competition s = "unknown")
  /\ (best_platform s = "multi-platform"
      <-> recommended_strategy s = "diversify across multiple platforms")
  /\ (best_platform s = "bing" -> total_volume s = 0)
  /\ (best_platform s = "youtube" -> google = None)
  /\ (best_platform s = "unknown" -> google = None)
  /\ In (best_platform s) ["google"; "bing"; "youtube"; "multi-platform"; "unknown"].
Proof.
  cbn zeta. unfold generateKeywordSummary.
  destruct google as [[v c]|]; [destruct v as [v|]|];
  destruct bing as [tr|]; try destruct tr as [tr|];
  destruct youtube as [vc|]; try destruct vc as [vc|];
  cbn [total_volume best_platform overall_competition recommended_strategy];
  destr_ifs;
  bool_facts; simpl;
  repeat split; intros; try discriminate; try lia; try tauto; try congruence.
Qed.

(** X21: the summary of a single-source request never names
    ['multi-platform'] nor recommends diversifying across platforms, and
    for a source other than Google its total volume is 0 and its overall
    competition ['unknown']. *)
Theorem single_source_summary_never_multi (keyword source : string)
    (up : Upstream YouTubeData) (s : KeywordSummary) :
  keywordIntelligenceSummary keyword source up = Ok s ->
  best_platform s <> "multi-platform"
  /\ recommended_strategy s <> "diversify across multiple platforms"
  /\ (source <> "google" -> total_volume s = 0 /\ overall_competition s = "unknown").
Proof.
  unfold keywordIntelligenceSummary, getKeywordIntelligence.
  destruct (String.eqb_spec source "google") as [->|Hg].
  - destruct (getGoogleKeywordData _ _ _ _) as [[gd gc]|m]; [|discriminate].
    intros H. injection H as <-. unfold generateKeywordSummary. simpl.
    destr_ifs; simpl; repeat split; intros; try discriminate; try congruence.
  - destruct (String.eqb_spec source "bing") as [->|Hb].
    + destruct (getBingKeywordData _ _) as [[bd bc]|m]; [|discriminate].
      intros H. injection H as <-. unfold generateKeywordSummary. simpl.
      destr_ifs; bool_facts; simpl; repeat split; intros; try discriminate; try lia.
    + destruct (String.eqb_spec source "youtube") as [->|Hy].
      * destruct (up_youtube up) as [[yd yc]|m]; [|discriminate].
        intros H. injection H as <-. unfold generateKeywordSummary. simpl.
        destr_ifs; simpl; repeat split; intros; try discriminate; try congruence.
      * intros H. injection H as <-. simpl. repeat split; discriminate.
Qed.

Definition popular_youtube_upstream : Upstream YouTubeData :=
  mkUpstream (Throw "unused") (Throw "unused") (Throw "unused") (Throw "unused")
    (Throw "unused") (Throw "unused")
    (Ok (mkYouTubeData 150 [] (mkVideoEngagement 0 0 None) [], 0%Q)).

Lemma single_source_summary_never_multi_witness :
  exists s, keywordIntelligenceSummary "seo" "youtube" popular_youtube_upstream = Ok s
            /\ best_platform s <> "multi-platform".
Proof.
  eexists. split; [reflexivity|].
  exact (proj1 (single_source_summary_never_multi "seo" "youtube" popular_youtube_upstream _ eq_refl)).
Defined.

End SummaryProps.

Module ComparisonProps.
Import Metrics Comparison CompetitionProps.

(** X22: [compareSearchEngines] never recommends anything: the Bing side
    always has search volume 0 and no competition, so the only possible key
    difference is ['Google shows more SERP features'], present exactly when
    the Google call succeeded with more SERP features than the Bing call
    (none when it failed); the total cost adds the costs of the calls that
    succeeded. *)
Theorem compareSearchEngines_insights {G B : Type} (g_volume : G -> Z) (g_comp : G -> Q)
    (g_features : G -> list string) (b_features : B -> list string) (keyword : string)
    (googleCall : Res (G * Q)) (bingCall : Res (B * Q)) :
  let r := compareSearchEngines g_volume g_comp g_features b_features keyword googleCall bingCall in
  recommendations (insights r) = []
  /\ key_differences (insights r)
     = match googleCall with
       | Ok (d, _) =>
           if Nat.ltb (length (match bingCall with Ok (bd, _) => b_features bd | Throw _ => [] end))
                      (length (g_features d))
           then ["Google shows more SERP features"] else []
       | Throw _ => []
       end
  /\ comparison_total_cost r
     = (0 + match googleCall with Ok (_, c) => c | Throw _ => 0 end
          + match bingCall with Ok (_, c) => c | Throw _ => 0 end)%Q.
Proof.
  cbn zeta. unfold compareSearchEngines, generateComparisonInsights.
  destruct googleCall as [[gd gc]|gm]; destruct bingCall as [[bd bc]|bm]; simpl;
    rewrite ?andb_false_r; simpl; repeat split;
    try (destruct (Nat.ltb _ _)); reflexivity.
Qed.

(** X23: when both search volumes are positive and Google's is more than
    twice Bing's, [generateComparisonInsights] recommends focusing on
    Google and states a percentage difference of at least 100%. *)
Theorem google_volume_difference_at_least_100 (googleData bingData : ComparisonData)
    (keyword : string) (g b : Z) :
  c_search_volume googleData = Some g -> c_search_volume bingData = Some b ->
  0 < b -> b * 2 < g ->
  let i := generateComparisonInsights googleData bingData keyword in
  In "Focus primary SEO efforts on Google" (recommendations i)
  /\ exists n, 100 <= n
     /\ In ("Google has " ++ show_Z n ++ "% higher search volume") (key_differences i).
Proof.
  intros Hg Hb Hbpos Hlt. cbn zeta.
  assert (Hr : 200 <= js_round (inject_Z g / inject_Z b * 100)%Q).
  { assert (Hq : (0 < inject_Z b)%Q)
      by (change 0%Q with (inject_Z 0); rewrite <- Zlt_Qlt; exact Hbpos).
    assert (H2 : (inject_Z 2 <= inject_Z g / inject_Z b)%Q).
    { apply Qle_shift_div_l; [exact Hq|]. rewrite <- inject_Z_mult, <- Zle_Qle. lia. }
    unfold js_round. rewrite <- (Qfloor_Z 200). apply Qfloor_resp_le.
    unfold inject_Z in H2 |- *. lra. }
  unfold generateComparisonInsights. rewrite Hg, Hb.
  assert (E1 : negb (Z.eqb g 0) && negb (Z.eqb b 0) = true).
  { apply andb_true_iff. split; apply negb_true_iff, Z.eqb_neq; lia. }
  rewrite E1. assert (E2 : Z.ltb (b * 2) g = true) by (apply Z.ltb_lt; lia). rewrite E2.
  destruct (c_competition googleData) as [gc|], (c_competition bingData) as [bc|];
    try destruct (Qgt gc (bc + (3 # 10))%Q); cbn [recommendations key_differences];
    (split; [simpl; left; reflexivity|]);
    exists (js_round (inject_Z g / inject_Z b * 100)%Q - 100);
    (split; [lia | simpl; left; reflexivity]).
Qed.

Lemma google_volume_difference_at_least_100_witness :
  let gd := mkComparisonData (Some 10000) (Some (6 # 10)) (Some ["images"]) in
  let bd := mkComparisonData (Some 3000) (Some (5 # 10)) (Some []) in
  In "Focus primary SEO efforts on Google" (recommendations (generateComparisonInsights gd bd "seo")).
Proof.
  intros gd bd.
  apply (google_volume_difference_at_least_100 gd bd "seo" 10000 3000); reflexivity || lia.
Defined.

End ComparisonProps.

Module MultiSourceCoverage.
Import MultiSource.

(** The cost a source contributes: its adapter's cost when it is listed in
    [sources_queried], 0 otherwise. *)
Definition queried_cost {D : Type} (queried : list string) (s : string) (call : Res (D * Q)) : Q :=
  if existsb (String.eqb s) queried then
    match call with Ok (_, c) => c | Throw _ => 0%Q end
  else 0%Q.

(** X24: in the multi-source [getKeywordIntelligence] a source's data is
    present exactly when the source is listed in [sources_queried], and is
    the data its adapter returned; no source is listed twice; and the total
    cost is the sum of the costs of the listed sources. *)
Theorem multi_source_data_matches_queried {G B Y : Type} (sources : option (list string))
    (g : Res (G * Q)) (b : Res (B * Q)) (y : Res (Y * Q)) :
  let r := getKeywordIntelligence sources g b y in
  (forall d, google r = Some d <-> In "google" (sources_queried r) /\ exists c, g = Ok (d, c))
  /\ (forall d, bing r = Some d <-> In "bing" (sources_queried r) /\ exists c, b = Ok (d, c))
  /\ (forall d, youtube r = Some d <-> In "youtube" (sources_queried r) /\ exists c, y = Ok (d, c))
  /\ NoDup (sources_queried r)
  /\ total_cost r
     = (0 + queried_cost (sources_queried r) "google" g + queried_cost (sources_queried r) "bing" b
          + queried_cost (sources_queried r) "youtube" y)%Q.
Proof.
  cbn zeta. unfold getKeywordIntelligence.
  set (src := match sources with Some l => l | None => ["google"] end).
  destruct (requested src "google"); destruct g as [[dg cg]|mg];
  destruct (requested src "bing"); destruct b as [[db cb]|mb];
  destruct (requested src "youtube"); destruct y as [[dy cy]|my];
  simpl; (split; [|split; [|split; [|split]]]);
  try (intros d; split;
       [intros H; try discriminate; injection H as <-; split; [tauto | eexists; reflexivity]
       |intros [Hin (c & Hc)]; try discriminate; try (injection Hc as <- _; reflexivity);
        simpl in Hin; intuition discriminate]);
  try reflexivity;
  repeat constructor; simpl; intuition discriminate.
Qed.

End MultiSourceCoverage.
